(** * csv-ai-analyzer: the CSV dataset builder and the chart aggregation pipeline

    A shallow embedding of [src/lib/csv-parser.ts] (detectDelimiter,
    inferColumnType, parseCSV) and of [processChartData] from
    [src/app/_components/ChartDisplay.tsx], with the properties of the
    specification that concern them.

    Conventions of the embedding.
    - A JavaScript string is a [string]; its characters stand for the code
      units 0..255.  The white space of [trim], of [\s] and of the numeric
      parsers is the part of the ECMAScript white space and line terminator
      sets that lies in that range; [toLowerCase] is the case mapping of the
      same range.
    - A JavaScript number is a [number]: NaN, the two infinities, or a finite
      value kept as a reduced rational.  A finite result whose magnitude
      reaches the binary64 overflow threshold becomes an infinity; the
      rounding of binary64 below that threshold and the sign of zero are not
      represented.
    - An array is a [list]; [a[i]] is the lookup [a !! i], which is [None]
      where JavaScript gives [undefined].
    - A [Map] is an association list in insertion order, as iteration over a
      JavaScript [Map] follows insertion order. *)

From Stdlib Require Import ZArith QArith Qround Lia Lqa Ascii String.
From stdpp Require Import base decidable option list strings pretty sorting.

Local Open Scope string_scope.
Local Open Scope list_scope.
Local Open Scope Z_scope.

(** ** Strings *)

Module JSString.

Definition code (c : ascii) : N := N_of_ascii c.

(** WhiteSpace and LineTerminator code units below 256: TAB, LF, VT, FF, CR,
    SP and NBSP. *)
Definition isWhiteSpace (c : ascii) : bool :=
  existsb (N.eqb (code c)) [9; 10; 11; 12; 13; 32; 160]%N.

Definition isDigit (c : ascii) : bool :=
  (48 <=? code c)%N && (code c <=? 57)%N.

Definition lowerChar (c : ascii) : ascii :=
  let n := code c in
  if ((65 <=? n) && (n <=? 90))%N then ascii_of_N (n + 32)
  else if ((192 <=? n) && (n <=? 222) && negb (n =? 215))%N then ascii_of_N (n + 32)
  else c.

(** [s.toLowerCase()] *)
Fixpoint toLowerCase (s : string) : string :=
  match s with
  | EmptyString => EmptyString
  | String c s' => String (lowerChar c) (toLowerCase s')
  end.

(** [s.trimStart()] *)
Fixpoint trimStart (s : string) : string :=
  match s with
  | EmptyString => EmptyString
  | String c s' => if isWhiteSpace c then trimStart s' else s
  end.

(** [s.trimEnd()] *)
Fixpoint trimEnd (s : string) : string :=
  match s with
  | EmptyString => EmptyString
  | String c s' =>
      match trimEnd s' with
      | EmptyString => if isWhiteSpace c then EmptyString else String c EmptyString
      | t => String c t
      end
  end.

(** [s.trim()] *)
Definition trim (s : string) : string := trimEnd (trimStart s).

(** [s.replace(/[\s,]/g, "")]: every white space character and every comma
    is removed. *)
Fixpoint removeSpacesAndCommas (s : string) : string :=
  match s with
  | EmptyString => EmptyString
  | String c s' =>
      if isWhiteSpace c || Ascii.eqb c "," then removeSpacesAndCommas s'
      else String c (removeSpacesAndCommas s')
  end.

(** [s.replace(",", ".")]: a string pattern replaces its first occurrence
    only. *)
Fixpoint replaceFirstComma (s : string) : string :=
  match s with
  | EmptyString => EmptyString
  | String c s' =>
      if Ascii.eqb c "," then String "." s' else String c (replaceFirstComma s')
  end.

(** [s.slice(0, n)] for a count [n]. *)
Fixpoint String_slice (n : nat) (s : string) : string :=
  match n, s with
  | S n', String c s' => String c (String_slice n' s')
  | _, _ => EmptyString
  end.

(** The number of matches of the one-character pattern [c] in [s]:
    [(s.match(new RegExp(`\\${c}`, "g")) ?? []).length]. *)
Fixpoint countChar (c : ascii) (s : string) : nat :=
  match s with
  | EmptyString => O
  | String c' s' => ((if Ascii.eqb c c' then 1 else 0) + countChar c s')%nat
  end.

(** [taken prefix s] is the rest of [s] after [prefix], when [s] starts with
    it. *)
Fixpoint taken (prefix s : string) : option string :=
  match prefix, s with
  | EmptyString, _ => Some s
  | String a p', String b s' => if Ascii.eqb a b then taken p' s' else None
  | String _ _, EmptyString => None
  end.

(** The longest run of characters satisfying [p] at the head of [s], and what
    follows it. *)
Fixpoint span (p : ascii -> bool) (s : string) : list ascii * string :=
  match s with
  | EmptyString => ([], EmptyString)
  | String c s' =>
      if p c then let '(run, rest) := span p s' in (c :: run, rest)
      else ([], s)
  end.

End JSString.

(** ** Numbers *)

Module JSNumber.
Import JSString.

Inductive number : Type :=
  | NaN
  | PosInf
  | NegInf
  | Fin (q : Q).

(** A real of magnitude [2^1024 - 2^970] or more has no finite binary64
    value. *)
Definition overflowBound : Z := 2 ^ 1024 - 2 ^ 970.

Definition fin (q : Q) : number :=
  if Qle_bool (inject_Z overflowBound) q then PosInf
  else if Qle_bool q (inject_Z (- overflowBound)) then NegInf
  else Fin (Qred q).

Definition ofNat (n : nat) : number := fin (inject_Z (Z.of_nat n)).

Definition isNaN (n : number) : bool :=
  match n with NaN => true | _ => false end.

Definition isFinite (n : number) : bool :=
  match n with Fin _ => true | _ => false end.

(** The sign of a number that is not NaN, as -1, 0 or 1. *)
Definition signOf (n : number) : Z :=
  match n with
  | NaN => 0
  | PosInf => 1
  | NegInf => -1
  | Fin q => Z.sgn (Qnum q)
  end.

Definition infOfSign (s : Z) : number :=
  match s with
  | Z0 => NaN
  | Zpos _ => PosInf
  | Zneg _ => NegInf
  end.

Definition neg (n : number) : number :=
  match n with
  | NaN => NaN
  | PosInf => NegInf
  | NegInf => PosInf
  | Fin q => Fin (Qred (- q))
  end.

(** [a + b] *)
Definition add (a b : number) : number :=
  match a, b with
  | NaN, _ | _, NaN => NaN
  | PosInf, NegInf | NegInf, PosInf => NaN
  | PosInf, _ | _, PosInf => PosInf
  | NegInf, _ | _, NegInf => NegInf
  | Fin x, Fin y => fin (x + y)
  end.

(** [a - b] *)
Definition sub (a b : number) : number := add a (neg b).

(** [a * b] *)
Definition mul (a b : number) : number :=
  match a, b with
  | NaN, _ | _, NaN => NaN
  | Fin x, Fin y => fin (x * y)
  | _, _ => infOfSign (signOf a * signOf b)
  end.

(** [a / b] *)
Definition div (a b : number) : number :=
  match a, b with
  | NaN, _ | _, NaN => NaN
  | Fin x, Fin y =>
      if Qeq_bool y 0 then infOfSign (signOf a) else fin (x / y)
  | Fin _, _ => Fin 0
  | _, Fin y => infOfSign (signOf a * (if Qeq_bool y 0 then 1 else signOf b))
  | _, _ => NaN
  end.

(** [a < b] *)
Definition ltb (a b : number) : bool :=
  match a, b with
  | NaN, _ | _, NaN => false
  | _, NegInf | PosInf, _ => false
  | NegInf, _ | _, PosInf => true
  | Fin x, Fin y => negb (Qle_bool y x)
  end.

(** [a === b] on numbers *)
Definition eqb (a b : number) : bool :=
  match a, b with
  | PosInf, PosInf | NegInf, NegInf => true
  | Fin x, Fin y => Qeq_bool x y
  | _, _ => false
  end.

(** [Math.min(a, b)] *)
Definition Math_min (a b : number) : number :=
  match a, b with
  | NaN, _ | _, NaN => NaN
  | _, _ => if ltb b a then b else a
  end.

(** [Math.max(a, b)] *)
Definition Math_max (a b : number) : number :=
  match a, b with
  | NaN, _ | _, NaN => NaN
  | _, _ => if ltb a b then b else a
  end.

(** [Math.round(a)]: the integer nearest to [a], a tie going up. *)
Definition Math_round (a : number) : number :=
  match a with
  | Fin q => Fin (inject_Z (Qfloor (q + (1 # 2))))
  | _ => a
  end.

(** *** Numeric literals in strings *)

Definition digitValue (c : ascii) : Z := Z.of_N (code c) - 48.

(** The value of a run of decimal digits. *)
Definition digitsValue (ds : list ascii) : Z :=
  fold_left (fun acc c => 10 * acc + digitValue c) ds 0.

Definition pow10 (e : Z) : Q :=
  if 0 <=? e then inject_Z (10 ^ e) else / inject_Z (10 ^ (- e)).

(** An ExponentPart at the head of [s]: its value and what follows it; when
    none starts there, exponent 0 and [s] itself. *)
Definition scanExponent (s : string) : Z * string :=
  match s with
  | String c s1 =>
      if Ascii.eqb c "e" || Ascii.eqb c "E" then
        let '(sign, s2) :=
          match s1 with
          | String "+" r => (1, r)
          | String "-" r => (-1, r)
          | _ => (1, s1)
          end in
        match span isDigit s2 with
        | ([], _) => (0, s)
        | (ds, rest) => (sign * digitsValue ds, rest)
        end
      else (0, s)
  | EmptyString => (0, s)
  end.

(** The longest StrUnsignedDecimalLiteral at the head of [s]: its value and
    what follows it. *)
Definition scanUnsignedDecimal (s : string) : option (number * string) :=
  match taken "Infinity" s with
  | Some rest => Some (PosInf, rest)
  | None =>
      let '(ip, s1) := span isDigit s in
      let '(fp, s2) :=
        match s1 with
        | String "." r =>
            let '(fp, s2) := span isDigit r in
            match ip, fp with
            | [], [] => ([], s1)
            | _, _ => (fp, s2)
            end
        | _ => ([], s1)
        end in
      match ip, fp with
      | [], [] => None
      | _, _ =>
          let '(e, s3) := scanExponent s2 in
          Some (fin (inject_Z (digitsValue (ip ++ fp))
                     * pow10 (e - Z.of_nat (length fp))), s3)
      end
  end.

(** The longest StrDecimalLiteral at the head of [s]. *)
Definition scanDecimal (s : string) : option (number * string) :=
  match s with
  | String "+" r => scanUnsignedDecimal r
  | String "-" r =>
      match scanUnsignedDecimal r with
      | Some (v, rest) => Some (neg v, rest)
      | None => None
      end
  | _ => scanUnsignedDecimal s
  end.

(** [parseFloat(s)]: leading white space is skipped, the longest prefix that
    is a decimal literal is read and the rest is ignored; NaN when no prefix
    is one. *)
Definition parseFloat (s : string) : number :=
  match scanDecimal (trimStart s) with
  | Some (v, _) => v
  | None => NaN
  end.

(** The value of a digit in a radix, when it is one. *)
Definition radixDigit (radix : Z) (c : ascii) : option Z :=
  let n := Z.of_N (code c) in
  let v :=
    if (48 <=? n) && (n <=? 57) then n - 48
    else if (97 <=? n) && (n <=? 102) then n - 87
    else if (65 <=? n) && (n <=? 70) then n - 55
    else radix in
  if v <? radix then Some v else None.

Fixpoint radixValue (radix : Z) (acc : Z) (s : string) : option Z :=
  match s with
  | EmptyString => Some acc
  | String c s' =>
      match radixDigit radix c with
      | Some v => radixValue radix (radix * acc + v) s'
      | None => None
      end
  end.

(** A NonDecimalIntegerLiteral: [0x], [0o] or [0b] and at least one digit. *)
Definition scanRadixLiteral (s : string) : option number :=
  match s with
  | String "0" (String c (String d r as ds)) =>
      let radix :=
        if Ascii.eqb c "x" || Ascii.eqb c "X" then Some 16
        else if Ascii.eqb c "o" || Ascii.eqb c "O" then Some 8
        else if Ascii.eqb c "b" || Ascii.eqb c "B" then Some 2
        else None in
      match radix with
      | Some rx =>
          match radixValue rx 0 ds with
          | Some v => Some (fin (inject_Z v))
          | None => None
          end
      | None => None
      end
  | _ => None
  end.

(** [Number(s)]: white space is trimmed on both sides; the empty string is 0;
    otherwise the whole string has to be a numeric literal. *)
Definition Number (s : string) : number :=
  let t := trim s in
  match t with
  | EmptyString => Fin 0
  | _ =>
      match scanRadixLiteral t with
      | Some v => v
      | None =>
          match scanDecimal t with
          | Some (v, EmptyString) => v
          | _ => NaN
          end
      end
  end.

End JSNumber.

Import JSString JSNumber.

(** ** The dataset ([src/lib/csv-parser.ts]) *)

Inductive ColumnType : Type := TString | TNumber | TDate | TBoolean.

Record CSVColumn : Type := {
  name : string;
  type : ColumnType;
  index : nat
}.

Record CSVData : Type := {
  headers : list string;
  rows : list (list string);
  columns : list CSVColumn;
  rowCount : nat
}.

Record CSVSettings : Type := {
  delimiter : string;
  hasHeader : bool;
  encoding : string;
  skipEmptyLines : bool
}.

Definition DEFAULT_CSV_SETTINGS : CSVSettings :=
  {| delimiter := ""; hasHeader := true; encoding := "UTF-8";
     skipEmptyLines := true |}.

(** [row[i] ?? d] *)
Definition cellOr (d : string) (row : list string) (i : nat) : string :=
  default d (row !! i).

(** *** detectDelimiter *)

Definition TAB : ascii := ascii_of_N 9.

Definition detectDelimiter (sample : string) : string :=
  let delimiters := ["," ; ";" ; TAB ; "|"]%char in
  let counts := map (fun d => (d, countChar d sample)) delimiters in
  let pick (a b : ascii * nat) := if (b.2 <? a.2)%nat then a else b in
  match counts with
  | [] => ","
  | first :: others =>
      let best := fold_left pick others first in
      if (0 <? best.2)%nat then String best.1 EmptyString else ","
  end.

(** *** inferColumnType *)

Definition booleanValues : list string :=
  ["true"; "false"; "yes"; "no"; "1"; "0"; "oui"; "non"].

(** The date patterns are anchored sequences of [\d] and literal
    characters. *)
Inductive PatternItem : Type :=
  | Digit
  | Lit (c : ascii).

(** [/^pattern$/.test(s)] *)
Fixpoint test (pattern : list PatternItem) (s : string) : bool :=
  match pattern, s with
  | [], EmptyString => true
  | Digit :: p, String c s' => isDigit c && test p s'
  | Lit a :: p, String c s' => Ascii.eqb a c && test p s'
  | _, _ => false
  end.

Definition digits (n : nat) : list PatternItem := replicate n Digit.

Definition datePatterns : list (list PatternItem) :=
  [ digits 4 ++ [Lit "-"] ++ digits 2 ++ [Lit "-"] ++ digits 2;
    digits 2 ++ [Lit "/"] ++ digits 2 ++ [Lit "/"] ++ digits 4;
    digits 2 ++ [Lit "-"] ++ digits 2 ++ [Lit "-"] ++ digits 4;
    digits 4 ++ [Lit "/"] ++ digits 2 ++ [Lit "/"] ++ digits 2 ].

(** [values.slice(0, sampleSize).filter((v) => v.trim() !== "")] *)
Definition sampleOf (values : list string) : list string :=
  let sampleSize := Nat.min (length values) 100 in
  filter (fun v => trim v <> "") (take sampleSize values).

Definition isBooleanValue (v : string) : bool :=
  bool_decide (trim (toLowerCase v) ∈ booleanValues).

(** The normalization of the number check. *)
Definition cleanNumber (v : string) : string :=
  replaceFirstComma (removeSpacesAndCommas v).

Definition isNumberValue (v : string) : bool :=
  let cleaned := cleanNumber v in
  negb (isNaN (parseFloat cleaned)) && isFinite (Number cleaned).

Definition isDateValue (v : string) : bool :=
  existsb (fun pattern => test pattern (trim v)) datePatterns.

Definition inferColumnType (values : list string) : ColumnType :=
  let sample := sampleOf values in
  if (length sample =? 0)%nat then TString
  else if forallb isBooleanValue sample then TBoolean
  else if forallb isNumberValue sample then TNumber
  else if forallb isDateValue sample then TDate
  else TString.

(** *** parseCSV *)

Definition emptyCSVData : CSVData :=
  {| headers := []; rows := []; columns := []; rowCount := 0 |}.

(** [`Column ${i + 1}`] *)
Definition columnPlaceholder (i : nat) : string :=
  "Column " +:+ pretty (i + 1)%nat.

(** [settings.delimiter || detectDelimiter(content.slice(0, 2000))] *)
Definition delimiterOf (content : string) (settings : CSVSettings) : string :=
  if bool_decide (delimiter settings = "")
  then detectDelimiter (String_slice 2000 content)
  else delimiter settings.

Section ParseCSV.

(** [Papa.parse(content, { delimiter, skipEmptyLines }).data]: the row
    parser is the papaparse library; [parseCSV] is defined over any row
    parser. *)
Variable Papa_parse : string -> string -> bool -> list (list string).

Definition parseCSV (content : string) (settings : CSVSettings) : CSVData :=
  let delimiter := delimiterOf content settings in
  let allRows := Papa_parse content delimiter (skipEmptyLines settings) in
  if (length allRows =? 0)%nat then emptyCSVData
  else
    let firstRow := default [] (allRows !! 0%nat) in
    let headers :=
      if hasHeader settings
      then imap (fun i h =>
                   if bool_decide (trim h = "") then columnPlaceholder i
                   else trim h) firstRow
      else imap (fun i _ => columnPlaceholder i) firstRow in
    let dataRows := if hasHeader settings then drop 1 allRows else allRows in
    let columns :=
      imap (fun index name =>
              let columnValues := map (fun row => cellOr "" row index) dataRows in
              {| name := name; type := inferColumnType columnValues;
                 index := index |}) headers in
    {| headers := headers; rows := dataRows; columns := columns;
       rowCount := length dataRows |}.

End ParseCSV.

(** *** The row parser *)

Module RowParser.

Definition QUOTE : ascii := ascii_of_N 34.
Definition LF : ascii := ascii_of_N 10.
Definition CR : ascii := ascii_of_N 13.

Record State : Type := mkState {
  doneRows : list (list string);
  doneFields : list string;
  cur : string;
  quoted : bool;
  fresh : bool;
  skip : nat
}.

Definition initial : State := mkState [] [] "" false true 0.

Definition push (c : ascii) (st : State) : State :=
  mkState (doneRows st) (doneFields st) (cur st +:+ String c EmptyString)
          (quoted st) false 0.

Definition endField (st : State) : State :=
  mkState (doneRows st) (doneFields st ++ [cur st]) "" false true 0.

Definition endRow (st : State) : State :=
  mkState (doneRows st ++ [doneFields st ++ [cur st]]) [] "" false true 0.

Definition skipping (n : nat) (st : State) : State :=
  mkState (doneRows st) (doneFields st) (cur st) (quoted st) (fresh st) n.

Definition setQuoted (q : bool) (st : State) : State :=
  mkState (doneRows st) (doneFields st) (cur st) q false 0.

Definition startsWith (c : ascii) (s : string) : bool :=
  match s with
  | String c' _ => Ascii.eqb c c'
  | EmptyString => false
  end.

Definition atDelimiter (delim s : string) : bool :=
  match delim with
  | EmptyString => false
  | _ => bool_decide (is_Some (taken delim s))
  end.

Fixpoint scan (delim : string) (s : string) (st : State) : State :=
  match s with
  | EmptyString => st
  | String c s' =>
      match skip st with
      | S k => scan delim s' (skipping k st)
      | O =>
          if quoted st then
            if Ascii.eqb c QUOTE then
              if startsWith QUOTE s'
              then scan delim s' (skipping 1 (push QUOTE st))
              else scan delim s' (setQuoted false st)
            else scan delim s' (push c st)
          else if fresh st && Ascii.eqb c QUOTE then
            scan delim s' (setQuoted true st)
          else if atDelimiter delim s then
            scan delim s' (skipping (String.length delim - 1) (endField st))
          else if Ascii.eqb c LF then scan delim s' (endRow st)
          else if Ascii.eqb c CR && startsWith LF s' then scan delim s' st
          else scan delim s' (push c st)
      end
  end.

(** Modelled from the spec: the Row Parser is the papaparse library, whose
    code is not among the sources.  Following section 4.2: the text is split
    into rows at line ends and each row into fields at the delimiter; a field
    wrapped in quotes may hold delimiters and line ends, and a doubled quote
    inside it is one quote character; an unterminated quote runs to the end
    of the input; rows that consist of a single empty field are dropped when
    the flag is set; empty input gives no rows. *)
Definition rowParser (content delim : string) (skipEmptyLines : bool)
  : list (list string) :=
  match content with
  | EmptyString => []
  | _ =>
      let parsed := doneRows (endRow (scan delim content initial)) in
      if skipEmptyLines then filter (fun row => row <> [""]) parsed
      else parsed
  end.

End RowParser.

(** ** The aggregation pipeline ([processChartData]) *)

Inductive AggregationType : Type :=
  | AggSum | AggAvg | AggCount | AggMin | AggMax | AggNone.

Inductive SortOrder : Type := SortNone | SortAsc | SortDesc.

(** The fields of a ChartSuggestion that [processChartData] reads. *)
Record ChartSuggestion : Type := {
  xAxis : string;
  yAxis : string;
  aggregation : AggregationType
}.

(** A ChartDataPoint is a [Record<string, string | number>]: its properties
    in insertion order. *)
Inductive PointValue : Type :=
  | VString (s : string)
  | VNumber (n : number).

Definition ChartDataPoint : Type := list (string * PointValue).

(** [{ [xCol]: xv, [yCol]: yv }]; when both keys are the same string the
    object has that one property, holding the later value. *)
Definition point (xCol xv yCol : string) (yv : number) : ChartDataPoint :=
  if bool_decide (xCol = yCol) then [(xCol, VNumber yv)]
  else [(xCol, VString xv); (yCol, VNumber yv)].

(** [p[key]] *)
Fixpoint prop (p : ChartDataPoint) (key : string) : option PointValue :=
  match p with
  | [] => None
  | (k, v) :: p' => if bool_decide (k = key) then Some v else prop p' key
  end.

(** [p[key] as number], as arithmetic and [isNaN] see it. *)
Definition numberProp (p : ChartDataPoint) (key : string) : number :=
  match prop p key with
  | Some (VNumber n) => n
  | Some (VString s) => Number s
  | None => NaN
  end.

Module Group.
Record stats : Type := mk {
  sum : number;
  count : nat;
  min : number;
  max : number
}.
End Group.

(** [Map<string, stats>] in insertion order. *)
Definition GroupMap : Type := list (string * Group.stats).

(** [groups.get(key)] *)
Fixpoint mapGet (groups : GroupMap) (key : string) : option Group.stats :=
  match groups with
  | [] => None
  | (k, v) :: rest => if bool_decide (k = key) then Some v else mapGet rest key
  end.

(** [groups.set(key, v)]: an existing key keeps its place. *)
Fixpoint mapSet (key : string) (v : Group.stats) (groups : GroupMap) : GroupMap :=
  match groups with
  | [] => [(key, v)]
  | (k, w) :: rest =>
      if bool_decide (k = key) then (k, v) :: rest
      else (k, w) :: mapSet key v rest
  end.

(** [a.slice(0, e)] *)
Definition Array_slice {A : Type} (l : list A) (e : Z) : list A :=
  let len := Z.of_nat (length l) in
  let k := if e <? 0 then Z.max (len + e) 0 else Z.min e len in
  take (Z.to_nat k) l.

(** [a.sort(comparefn)].  The sort of ECMAScript is stable, and a comparator
    result that is positive moves the first argument after the second; zero,
    a negative number and NaN leave it before. *)
Fixpoint insertSorted {A : Type} (comparefn : A -> A -> number) (x : A) (l : list A)
  : list A :=
  match l with
  | [] => [x]
  | y :: l' =>
      if ltb (Fin 0) (comparefn x y) then y :: insertSorted comparefn x l'
      else x :: l
  end.

Definition Array_sort {A : Type} (comparefn : A -> A -> number) (l : list A) : list A :=
  foldr (insertSorted comparefn) [] l.

(** [data.columns.find(c => c.name.toLowerCase() === axis.toLowerCase())] *)
Definition findColumn (cols : list CSVColumn) (axis : string) : option CSVColumn :=
  snd <$> list_find (fun c => toLowerCase (name c) = toLowerCase axis) cols.

(** The body of [data.rows.forEach(row => ...)]. *)
Definition accumulate (isCountMode : bool) (xIdx : nat) (yIdx : Z)
    (groups : GroupMap) (row : list string) : GroupMap :=
  let xVal := trim (cellOr "" row xIdx) in
  if bool_decide (xVal = "") then groups
  else if isCountMode then
    let current :=
      default (Group.mk (Fin 0) 0 (Fin 0) (Fin 0)) (mapGet groups xVal) in
    mapSet xVal
      (Group.mk (Group.sum current) (Group.count current + 1)
                (Group.min current) (Group.max current)) groups
  else if 0 <=? yIdx then
    let yVal := parseFloat (cellOr "0" row (Z.to_nat yIdx)) in
    if negb (isNaN yVal) then
      let current :=
        default (Group.mk (Fin 0) 0 PosInf NegInf) (mapGet groups xVal) in
      mapSet xVal
        (Group.mk (add (Group.sum current) yVal)
                  (Group.count current + 1)
                  (Math_min (Group.min current) yVal)
                  (Math_max (Group.max current) yVal)) groups
    else groups
  else groups.

(** The [switch (chart.aggregation)] that reduces a group to one value. *)
Definition groupValue (agg : AggregationType) (stats : Group.stats) : number :=
  match agg with
  | AggSum => Group.sum stats
  | AggAvg =>
      if (0 <? Group.count stats)%nat
      then div (Group.sum stats) (ofNat (Group.count stats))
      else Fin 0
  | AggCount => ofNat (Group.count stats)
  | AggMin =>
      match Group.min stats with
      | PosInf => Fin 0
      | m => m
      end
  | AggMax =>
      match Group.max stats with
      | NegInf => Fin 0
      | m => m
      end
  | AggNone => Group.sum stats
  end.

(** [Math.round(value * 100) / 100] *)
Definition round2 (value : number) : number :=
  div (Math_round (mul value (Fin 100))) (Fin 100).

(** The groups after the [forEach] over the rows. *)
Definition groupRows (isCountMode : bool) (xIdx : nat) (yIdx : Z)
    (rows : list (list string)) : GroupMap :=
  fold_left (accumulate isCountMode xIdx yIdx) rows [].

(** [result] in aggregated mode. *)
Definition aggregatedPoints (data : CSVData) (agg : AggregationType)
    (xCol : string) (xIdx : nat) (yCol : string) (yIdx : Z) : list ChartDataPoint :=
  let isCountMode := match agg with AggCount => true | _ => false end in
  map (fun '(key, stats) => point xCol key yCol (round2 (groupValue agg stats)))
      (groupRows isCountMode xIdx yIdx (rows data)).

(** One row of raw mode: [{ [xCol]: row[xIdx] ?? "", [yCol]: parseFloat(...) }] *)
Definition rawPoint (xCol : string) (xIdx : nat) (yCol : string) (yIdx : Z)
    (row : list string) : ChartDataPoint :=
  point xCol (cellOr "" row xIdx) yCol
        (parseFloat (cellOr "0" row (Z.to_nat yIdx))).

(** [result] in raw mode. *)
Definition rawPoints (data : CSVData) (xCol : string) (xIdx : nat)
    (yCol : string) (yIdx : Z) (limit : Z) : list ChartDataPoint :=
  filter (fun item => isNaN (numberProp item yCol) = false)
    (map (rawPoint xCol xIdx yCol yIdx)
       (Array_slice (rows data)
          (Z.min (limit * 2) (Z.of_nat (length (rows data)))))).

(** The comparator handed to [result.sort]. *)
Definition compareY (sortOrder : SortOrder) (yCol : string)
    (a b : ChartDataPoint) : number :=
  let aVal := numberProp a yCol in
  let bVal := numberProp b yCol in
  match sortOrder with
  | SortDesc => sub bVal aVal
  | _ => sub aVal bVal
  end.

(** [result] before sorting: aggregated mode, raw mode, or neither. *)
Definition unsortedPoints (data : CSVData) (agg : AggregationType)
    (xCol : string) (xIdx : nat) (yCol : string) (yIdx : Z) (limit : Z)
  : list ChartDataPoint :=
  match agg with
  | AggNone =>
      if 0 <=? yIdx then rawPoints data xCol xIdx yCol yIdx limit else []
  | _ => aggregatedPoints data agg xCol xIdx yCol yIdx
  end.

(** [if (sortOrder !== "none") result.sort(...)] *)
Definition sortPoints (sortOrder : SortOrder) (yCol : string)
    (result : list ChartDataPoint) : list ChartDataPoint :=
  match sortOrder with
  | SortNone => result
  | _ => Array_sort (compareY sortOrder yCol) result
  end.

(** [processChartData(data, chart, sortOrder, limit)]; the source gives
    [sortOrder] the default ["none"] and [limit] the default 20. *)
Definition processChartData (data : CSVData) (chart : ChartSuggestion)
    (sortOrder : SortOrder) (limit : Z) : list ChartDataPoint :=
  let xColDef := findColumn (columns data) (xAxis chart) in
  let yColDef := findColumn (columns data) (yAxis chart) in
  match xColDef with
  | None => []
  | Some xColDef =>
      let xCol := name xColDef in
      let xIdx := index xColDef in
      let yCol := default "count" (name <$> yColDef) in
      let yIdx := default (-1) ((fun c => Z.of_nat (index c)) <$> yColDef) in
      let result :=
        unsortedPoints data (aggregation chart) xCol xIdx yCol yIdx limit in
      Array_slice (sortPoints sortOrder yCol result) limit
  end.


(** * Definitions used in the statements *)

(** ** Example inputs *)

Definition salesColumns : list CSVColumn :=
  [ {| name := "Category"; type := TString; index := 0 |};
    {| name := "Amount"; type := TNumber; index := 1 |} ].

Definition dataset (rs : list (list string)) : CSVData :=
  {| headers := ["Category"; "Amount"]; rows := rs; columns := salesColumns;
     rowCount := length rs |}.

(** Text of several lines: [lines ["a"; "b"]] is ["a\nb"]. *)
Definition lines (ls : list string) : string :=
  match ls with
  | [] => ""
  | l :: ls' =>
      fold_left (fun acc x => acc +:+ String RowParser.LF EmptyString +:+ x) ls' l
  end.

Definition chartOf (x y : string) (agg : AggregationType) : ChartSuggestion :=
  {| xAxis := x; yAxis := y; aggregation := agg |}.

Definition raggedText : string := lines ["a"; "1,2"].

(** ** Column type inference, as the specification words its sample *)

(** The sample as the specification words it: up to the first 100 non-empty
    values of the column. *)
Definition firstNonEmptyValues (values : list string) : list string :=
  take 100 (filter (fun v => trim v <> "") values).

(** Type inference over that sample, with the rules of the code. *)
Definition inferColumnType_spec (values : list string) : ColumnType :=
  let sample := firstNonEmptyValues values in
  if (length sample =? 0)%nat then TString
  else if forallb isBooleanValue sample then TBoolean
  else if forallb isNumberValue sample then TNumber
  else if forallb isDateValue sample then TDate
  else TString.

(** ** The stages of the pipeline *)

(** [after comparefn x y]: the comparator asks for [x] to go after [y]. *)
Definition after {A : Type} (comparefn : A -> A -> number) (x y : A) : bool :=
  ltb (Fin 0) (comparefn x y).

(** The key under which the y value of a point is stored. *)
Definition yColOf (data : CSVData) (chart : ChartSuggestion) : string :=
  default "count" (name <$> findColumn (columns data) (yAxis chart)).

Definition yIdxOf (data : CSVData) (chart : ChartSuggestion) : Z :=
  default (-1) ((fun c => Z.of_nat (index c))
                  <$> findColumn (columns data) (yAxis chart)).

(** The pairs the pipeline has produced when it reaches the sorting step. *)
Definition producedPoints (data : CSVData) (chart : ChartSuggestion) (limit : Z)
  : list ChartDataPoint :=
  match findColumn (columns data) (xAxis chart) with
  | None => []
  | Some xColDef =>
      unsortedPoints data (aggregation chart) (name xColDef) (index xColDef)
                     (yColOf data chart) (yIdxOf data chart) limit
  end.

(** [inOrder sortOrder u v]: a point with y value [u] may stand before one
    with y value [v]. *)
Definition inOrder (sortOrder : SortOrder) (u v : number) : Prop :=
  match sortOrder with
  | SortDesc => ltb u v = false
  | _ => ltb v u = false
  end.

(** ** Groups, described from the rows *)

(** The y value read from a row: [parseFloat(String(row[yIdx] ?? "0"))]. *)
Definition yValueOf (yIdx : nat) (row : list string) : number :=
  parseFloat (default "0" (row !! yIdx)).

(** The x key of a row: [String(row[xIdx] ?? "").trim()]. *)
Definition xKeyOf (xIdx : nat) (row : list string) : string :=
  trim (default "" (row !! xIdx)).

(** A row feeds a group when its x key is not empty and its y reads as a
    number. *)
Definition feeds (xIdx yIdx : nat) (row : list string) : Prop :=
  xKeyOf xIdx row <> "" /\ isNaN (yValueOf yIdx row) = false.

Global Instance feeds_dec xIdx yIdx row : Decision (feeds xIdx yIdx row) :=
  ltac:(unfold feeds; apply _).

(** The y numbers of the rows that feed the group [key], in row order. *)
Definition groupValues (xIdx yIdx : nat) (key : string)
    (rows : list (list string)) : list number :=
  map (yValueOf yIdx)
      (filter (fun row => feeds xIdx yIdx row /\ xKeyOf xIdx row = key) rows).

(** The distinct elements of a list, in the order of their first
    appearance. *)
Definition firstAppearances (keys : list string) : list string :=
  fold_left (fun seen k => if bool_decide (k ∈ seen) then seen else seen ++ [k])
            keys [].

(** The keys of the groups, in discovery order. *)
Definition groupKeys (xIdx yIdx : nat) (rows : list (list string)) : list string :=
  firstAppearances (map (xKeyOf xIdx) (filter (feeds xIdx yIdx) rows)).

(** One step of the accumulators and the accumulators of a sequence of y
    numbers. *)
Definition statsStep (st : Group.stats) (y : number) : Group.stats :=
  Group.mk (add (Group.sum st) y) (Group.count st + 1)
           (Math_min (Group.min st) y) (Math_max (Group.max st) y).

Definition statsOf (ys : list number) : Group.stats :=
  fold_left statsStep ys (Group.mk (Fin 0) 0 PosInf NegInf).

(** The extremum a min or max group reports, before rounding: the fold of
    [Math.min] from [Infinity], or of [Math.max] from [-Infinity], over the
    y numbers of the group. *)
Definition extremumOf (agg : AggregationType) (ys : list number) : number :=
  match agg with
  | AggMax => fold_left Math_max ys NegInf
  | _ => fold_left Math_min ys PosInf
  end.

(** [stats.min === Infinity ? 0 : stats.min], and the same for max. *)
Definition resetSentinel (agg : AggregationType) (v : number) : number :=
  match agg, v with
  | AggMin, PosInf => Fin 0
  | AggMax, NegInf => Fin 0
  | _, _ => v
  end.

(** [moreExtreme agg u v]: [u] lies strictly beyond [v] in the direction of
    the aggregation. *)
Definition moreExtreme (agg : AggregationType) (u v : number) : bool :=
  match agg with
  | AggMax => ltb v u
  | _ => ltb u v
  end.

(** The output pairs of min or max mode, one per group key. *)
Definition extremumPoint (agg : AggregationType) (xCol yCol : string)
    (xIdx yIdx : nat) (rows : list (list string)) (key : string) : ChartDataPoint :=
  point xCol key yCol
        (round2 (resetSentinel agg
                   (extremumOf agg (groupValues xIdx yIdx key rows)))).

(** The number the summary and the type inference see in a cell:
    [parseFloat(v.replace(/[\s,]/g, "").replace(",", "."))]. *)
Definition normalizedNumber (v : string) : number :=
  parseFloat (cleanNumber v).

(** ** Count mode, described from the rows *)

(** The keys of count mode: the non-empty trimmed x values, in discovery
    order. *)
Definition countKeys (xIdx : nat) (rows : list (list string)) : list string :=
  firstAppearances (filter (fun k => k <> "") (map (xKeyOf xIdx) rows)).

(** The rows whose trimmed x cell is [key]. *)
Definition rowsWithKey (xIdx : nat) (key : string) (rows : list (list string))
  : list (list string) :=
  filter (fun row => xKeyOf xIdx row = key) rows.

(** The dataset with other rows. *)
Definition withRows (data : CSVData) (rs : list (list string)) : CSVData :=
  {| headers := headers data; rows := rs; columns := columns data;
     rowCount := length rs |}.

(** The chart with both axis names in lower case. *)
Definition lowerCased (chart : ChartSuggestion) : ChartSuggestion :=
  {| xAxis := toLowerCase (xAxis chart); yAxis := toLowerCase (yAxis chart);
     aggregation := aggregation chart |}.

(** ** The chart component ([SingleChart]) *)

(** [xColName] and [yColName]:
    [data.columns.find((col) => col.name === axis ||
       col.name.toLowerCase() === axis.toLowerCase())?.name ?? axis] *)
Definition columnDisplayName (cols : list CSVColumn) (axis : string) : string :=
  default axis
    (name <$> (snd <$> list_find
                 (fun col => name col = axis
                             \/ toLowerCase (name col) = toLowerCase axis) cols)).

(** The [average] of the trend line:
    [processedData.reduce((acc, item) => acc + (typeof item[yColName] ===
       "number" ? item[yColName] : 0), 0) / processedData.length], and 0 for
    no data. *)
Definition average (processedData : list ChartDataPoint) (yColName : string)
  : number :=
  if (length processedData =? 0)%nat then Fin 0
  else
    div (fold_left
           (fun acc item =>
              add acc (match prop item yColName with
                       | Some (VNumber val) => val
                       | _ => Fin 0
                       end))
           processedData (Fin 0))
        (ofNat (length processedData)).

(** ** The delimiter candidates *)

(** [delimiters] of [detectDelimiter], in the order of the source. *)
Definition delimiterCandidates : list ascii := ["," ; ";" ; TAB ; "|"]%char.

(** ** The summary ([generateDataSummary] of [src/lib/csv-parser.ts]) *)

Definition NEWLINE : string := String (ascii_of_N 10) EmptyString.

(** [strings.join(sep)] *)
Definition join (sep : string) (strings : list string) : string :=
  String.concat sep strings.

Section Summary.

(** [n.toFixed(2)]: the decimal rendering of a binary64 number is left to the
    JavaScript runtime; the summary is defined over any such rendering. *)
Variable toFixed2 : number -> string.

(** [values.filter((v) => v.trim() !== "")] for the column. *)
Definition nonEmptyValues (data : CSVData) (col : CSVColumn) : list string :=
  filter (fun v => trim v <> "")
         (map (fun row => cellOr "" row (index col)) (rows data)).

(** [numbers]: the non-empty values read after normalization, NaN dropped. *)
Definition columnNumbers (data : CSVData) (col : CSVColumn) : list number :=
  filter (fun n => isNaN n = false)
         (map (fun v => parseFloat (cleanNumber v)) (nonEmptyValues data col)).

(** The line pushed for one column. *)
Definition columnLine (data : CSVData) (col : CSVColumn) : string :=
  let nonEmpty := nonEmptyValues data col in
  match type col with
  | TNumber =>
      let numbers := columnNumbers data col in
      if (0 <? length numbers)%nat then
        let min := fold_left Math_min numbers PosInf in
        let max := fold_left Math_max numbers NegInf in
        let avg := div (fold_left add numbers (Fin 0)) (ofNat (length numbers)) in
        "- " +:+ name col +:+ " (number): min=" +:+ toFixed2 min
             +:+ ", max=" +:+ toFixed2 max +:+ ", avg=" +:+ toFixed2 avg
             +:+ ", " +:+ pretty (length numbers) +:+ " values"
      else "- " +:+ name col +:+ " (number): no valid values"
  | TString =>
      let uniqueValues := firstAppearances nonEmpty in
      let uniqueCount := length uniqueValues in
      let sampleValues := join ", " (take 5 uniqueValues) in
      "- " +:+ name col +:+ " (text): " +:+ pretty uniqueCount
           +:+ " unique values, examples: " +:+ sampleValues
  | TDate =>
      "- " +:+ name col +:+ " (date): " +:+ pretty (length nonEmpty) +:+ " values"
  | TBoolean =>
      "- " +:+ name col +:+ " (boolean): " +:+ pretty (length nonEmpty)
           +:+ " values"
  end.

(** The line pushed for the [i]-th sample row. *)
Definition sampleRowLine (data : CSVData) (i : nat) (row : list string) : string :=
  let rowData :=
    join ", " (map (fun col => name col +:+ ": " +:+ cellOr "N/A" row (index col))
                   (columns data)) in
  "Row " +:+ pretty (i + 1)%nat +:+ ": " +:+ rowData.

(** The array [summary] when it is joined. *)
Definition summaryLines (data : CSVData) : list string :=
  ["Dataset with " +:+ pretty (rowCount data) +:+ " rows and "
     +:+ pretty (length (columns data)) +:+ " columns."]
  ++ [NEWLINE +:+ "Columns:"]
  ++ map (columnLine data) (columns data)
  ++ [NEWLINE +:+ "First 5 rows sample:"]
  ++ imap (sampleRowLine data) (take 5 (rows data)).

Definition generateDataSummary (data : CSVData) : string :=
  join NEWLINE (summaryLines data).

End Summary.

(** ** Validation of suggested charts ([ChartSuggestions]) *)

(** [data.headers.includes(chart.xAxis) && data.headers.includes(chart.yAxis)] *)
Definition hasValidColumns (data : CSVData) (chart : ChartSuggestion) : bool :=
  bool_decide (xAxis chart ∈ headers data)
  && bool_decide (yAxis chart ∈ headers data).

(** ** The chat store ([src/lib/chat-store.ts]) *)

Module ChatStore.

Record ChatMessage : Type := {
  prompt : string;
  response : string
}.

Inductive AnalysisTab : Type := TabSummary | TabAnomalies | TabCustom.

Definition tabEqb (a b : AnalysisTab) : bool :=
  match a, b with
  | TabSummary, TabSummary | TabAnomalies, TabAnomalies | TabCustom, TabCustom =>
      true
  | _, _ => false
  end.

Record ChatStore : Type := mkStore {
  history : list ChatMessage;
  streamingResponse : string;
  currentPrompt : string;
  activeTab : AnalysisTab;
  isLoading : bool;
  pendingPrompt : string;
  version : nat
}.

Definition initialState : ChatStore :=
  mkStore [] "" "" TabSummary false "" 0.

(** [Partial<Omit<ChatStore, "version">>]: the fields an update sets. *)
Record Updates : Type := mkUpdates {
  setsHistory : option (list ChatMessage);
  setsStreamingResponse : option string;
  setsCurrentPrompt : option string;
  setsActiveTab : option AnalysisTab;
  setsIsLoading : option bool;
  setsPendingPrompt : option string
}.

(** The state of the module: the variable [store], the set [subscribers] in
    insertion order (a callback is known by a number), the notifications
    queued as microtasks and not yet run, and the calls made to callbacks so
    far. *)
Record State : Type := mkState {
  store : ChatStore;
  subscribers : list nat;
  queued : nat;
  calls : list nat
}.

Definition initial : State := mkState initialState [] 0 [].

(** [subscribers.add(callback)] and [subscribers.delete(callback)] *)
Definition setAdd (x : nat) (s : list nat) : list nat :=
  if bool_decide (x ∈ s) then s else s ++ [x].

Definition setDelete (x : nat) (s : list nat) : list nat :=
  filter (fun y => y <> x) s.

(** [notifySubscribers()]: the calls are queued as one microtask. *)
Definition notifySubscribers (st : State) : State :=
  mkState (store st) (subscribers st) (queued st + 1) (calls st).

(** [notifySubscribersSync()]: every subscriber is called now. *)
Definition notifySubscribersSync (st : State) : State :=
  mkState (store st) (subscribers st) (queued st) (calls st ++ subscribers st).

(** A queued microtask runs: every subscriber of that moment is called. *)
Definition runMicrotask (st : State) : State :=
  match queued st with
  | O => st
  | S n => mkState (store st) (subscribers st) n (calls st ++ subscribers st)
  end.

Definition getChatStore (st : State) : ChatStore := store st.

(** [{ ...store, ...updates, version: store.version + 1 }] *)
Definition merge (s : ChatStore) (updates : Updates) : ChatStore :=
  mkStore (default (history s) (setsHistory updates))
          (default (streamingResponse s) (setsStreamingResponse updates))
          (default (currentPrompt s) (setsCurrentPrompt updates))
          (default (activeTab s) (setsActiveTab updates))
          (default (isLoading s) (setsIsLoading updates))
          (default (pendingPrompt s) (setsPendingPrompt updates))
          (version s + 1).

Definition updateStore (updates : Updates) (sync : bool) (st : State) : State :=
  let st' := mkState (merge (store st) updates) (subscribers st) (queued st)
                     (calls st) in
  if sync then notifySubscribersSync st' else notifySubscribers st'.

Definition addChatMessage (message : ChatMessage) (st : State) : State :=
  updateStore
    (mkUpdates (Some (history (store st) ++ [message])) (Some "") None None
               (Some false) (Some "")) false st.

Definition setStreamingResponse (response : string) (st : State) : State :=
  updateStore (mkUpdates None (Some response) None None None None) true st.

Definition appendStreamingResponse (chunk : string) (st : State) : State :=
  updateStore
    (mkUpdates None (Some (streamingResponse (store st) +:+ chunk)) None None
               None None) true st.

Definition setCurrentPrompt (p : string) (st : State) : State :=
  updateStore (mkUpdates None None (Some p) None None None) false st.

Definition setLoadingState (loading : bool) (pending : string) (st : State)
  : State :=
  updateStore
    (mkUpdates None None None None (Some loading)
               (Some (if loading then pending else ""))) true st.

Definition clearChatStore (st : State) : State :=
  notifySubscribers
    (mkState (mkStore (history initialState) (streamingResponse initialState)
                      (currentPrompt initialState) (activeTab initialState)
                      (isLoading initialState) (pendingPrompt initialState)
                      (version (store st) + 1))
             (subscribers st) (queued st) (calls st)).

Definition setActiveTabInStore (tab : AnalysisTab) (st : State) : State :=
  if negb (tabEqb (activeTab (store st)) tab)
  then updateStore (mkUpdates None None None (Some tab) None None) true st
  else st.

(** [subscribeToChatStore(callback)]: the callback joins the set and is
    called at once; the function returned is [unsubscribe]. *)
Definition subscribeToChatStore (callback : nat) (st : State) : State :=
  mkState (store st) (setAdd callback (subscribers st)) (queued st)
          (calls st ++ [callback]).

Definition unsubscribe (callback : nat) (st : State) : State :=
  mkState (store st) (setDelete callback (subscribers st)) (queued st) (calls st).

(** What can happen to the module, one step at a time. *)
Inductive Action : Type :=
  | AddChatMessage (message : ChatMessage)
  | SetStreamingResponse (response : string)
  | AppendStreamingResponse (chunk : string)
  | SetCurrentPrompt (p : string)
  | SetLoadingState (loading : bool) (pending : string)
  | ClearChatStore
  | SetActiveTabInStore (tab : AnalysisTab)
  | Subscribe (callback : nat)
  | Unsubscribe (callback : nat)
  | RunMicrotask.

Definition run (st : State) (a : Action) : State :=
  match a with
  | AddChatMessage m => addChatMessage m st
  | SetStreamingResponse r => setStreamingResponse r st
  | AppendStreamingResponse c => appendStreamingResponse c st
  | SetCurrentPrompt p => setCurrentPrompt p st
  | SetLoadingState l p => setLoadingState l p st
  | ClearChatStore => clearChatStore st
  | SetActiveTabInStore t => setActiveTabInStore t st
  | Subscribe cb => subscribeToChatStore cb st
  | Unsubscribe cb => unsubscribe cb st
  | RunMicrotask => runMicrotask st
  end.

Definition runAll (st : State) (actions : list Action) : State :=
  fold_left run actions st.

(** The messages a sequence of actions adds. *)
Definition addedMessages (actions : list Action) : list ChatMessage :=
  omap (fun a => match a with AddChatMessage m => Some m | _ => None end) actions.

Definition isClear (a : Action) : bool :=
  match a with ClearChatStore => true | _ => false end.

Definition isSubscribe (callback : nat) (a : Action) : bool :=
  match a with Subscribe cb => bool_decide (cb = callback) | _ => false end.

End ChatStore.

(** ** The browser language ([getBrowserLanguage] of [src/lib/ai-models.ts]) *)

(** The [code] fields of [SUPPORTED_LANGUAGES], in the order of the source;
    the [name] fields are display labels that the function does not read. *)
Definition SUPPORTED_LANGUAGE_CODES : list string :=
  ["en"; "fr"; "de"; "es"; "it"; "pt"; "nl"; "ja"; "zh"].

(** [s.split("-")[0]]: what precedes the first hyphen. *)
Fixpoint beforeHyphen (s : string) : string :=
  match s with
  | EmptyString => EmptyString
  | String c s' => if Ascii.eqb c "-" then EmptyString else String c (beforeHyphen s')
  end.

(** [getBrowserLanguage()]; the argument is [navigator.language], or [None]
    where there is no [navigator]. *)
Definition getBrowserLanguage (navigatorLanguage : option string) : string :=
  match navigatorLanguage with
  | None => "en"
  | Some language =>
      let browserLang := beforeHyphen language in
      match list_find (fun code => code = browserLang) SUPPORTED_LANGUAGE_CODES with
      | Some (_, code) => code
      | None => "en"
      end
  end.

(** ** The data table ([DataTable]) *)

Inductive SortDirection : Type := Asc | Desc.

Section DataTable.

(** [a.localeCompare(b)] depends on the locale of the runtime; the table is
    defined over any such comparison. *)
Variable localeCompare : string -> string -> number.

(** The comparator of [sortedRows]. *)
Definition compareRows (sortColumn : nat) (sortDirection : SortDirection)
    (a b : list string) : number :=
  let aVal := cellOr "" a sortColumn in
  let bVal := cellOr "" b sortColumn in
  let aNum := Number aVal in
  let bNum := Number bVal in
  if negb (isNaN aNum) && negb (isNaN bNum) then
    match sortDirection with
    | Asc => sub aNum bNum
    | Desc => sub bNum aNum
    end
  else
    let comparison := localeCompare aVal bVal in
    match sortDirection with
    | Asc => comparison
    | Desc => neg comparison
    end.

Definition sortedRows (data : CSVData) (sortColumn : option nat)
    (sortDirection : SortDirection) : list (list string) :=
  match sortColumn with
  | None => rows data
  | Some column => Array_sort (compareRows column sortDirection) (rows data)
  end.

End DataTable.

(** [sortedRows.slice(start, start + rowsPerPage)] with
    [start = page * rowsPerPage], for a page number and a page size that are
    counts. *)
Definition paginatedRows {A : Type} (sorted : list A) (page rowsPerPage : nat)
  : list A :=
  take rowsPerPage (drop (page * rowsPerPage) sorted).

(** [Math.ceil(data.rowCount / rowsPerPage)], for the page sizes of the
    table, which are positive. *)
Definition totalPages (rowCount rowsPerPage : nat) : Z :=
  Qceiling (inject_Z (Z.of_nat rowCount) / inject_Z (Z.of_nat rowsPerPage)).

(** ** The chart suggestions panel ([ChartSuggestions]) *)

Module Suggestions.

Inductive ChartType : Type := Bar | Line | Pie | Scatter | Area.

(** The string a chart type is in the source. *)
Definition chartTypeName (t : ChartType) : string :=
  match t with
  | Bar => "bar"
  | Line => "line"
  | Pie => "pie"
  | Scatter => "scatter"
  | Area => "area"
  end.

Record ManualChartConfig : Type := {
  type : ChartType;
  title : string;
  xColumn : string;
  yColumn : string;
  aggregation : AggregationType
}.

(** The configuration the form starts from and is reset to. *)
Definition emptyManualConfig : ManualChartConfig :=
  {| type := Bar; title := ""; xColumn := ""; yColumn := "";
     aggregation := AggSum |}.

(** A suggestion of the panel: a ChartSuggestion object, with the fields that
    [processChartData] reads kept together as [chart]. *)
Record Suggestion : Type := {
  id : string;
  chartType : ChartType;
  chartTitle : string;
  description : string;
  chart : ChartSuggestion;
  dataConfig : string * string
}.

(** The pieces of the component's state that the handlers below read or
    write; [selectedCharts] is a [Set] of ids, in insertion order. *)
Record State : Type := mkState {
  suggestions : list Suggestion;
  selectedCharts : list string;
  error : option string;
  showManualCreate : bool;
  manualConfig : ManualChartConfig
}.

Definition setAdd (x : string) (s : list string) : list string :=
  if bool_decide (x ∈ s) then s else s ++ [x].

Definition setDelete (x : string) (s : list string) : list string :=
  filter (fun y => y <> x) s.

(** [toggleChart(chartId)] *)
Definition toggleChart (chartId : string) (st : State) : State :=
  mkState (suggestions st)
          (if bool_decide (chartId ∈ selectedCharts st)
           then setDelete chartId (selectedCharts st)
           else setAdd chartId (selectedCharts st))
          (error st) (showManualCreate st) (manualConfig st).

(** [removeChart(chartId)] *)
Definition removeChart (chartId : string) (st : State) : State :=
  mkState (filter (fun s => id s <> chartId) (suggestions st))
          (setDelete chartId (selectedCharts st))
          (error st) (showManualCreate st) (manualConfig st).

(** The auto-apply effect: when there is a suggestion, the selected
    suggestions are handed to [onChartsGenerated]; otherwise nothing is
    called. *)
Definition autoApply (st : State) : option (list Suggestion) :=
  if (0 <? length (suggestions st))%nat
  then Some (filter (fun s => id s ∈ selectedCharts st) (suggestions st))
  else None.

(** [handleManualCreate()]; [now] is the value of [Date.now()]. *)
Definition handleManualCreate (now : nat) (st : State) : State :=
  let cfg := manualConfig st in
  if bool_decide (trim (title cfg) = "") || bool_decide (xColumn cfg = "") then
    mkState (suggestions st) (selectedCharts st)
            (Some "Please fill in all required fields")
            (showManualCreate st) (manualConfig st)
  else
    let yCol :=
      match aggregation cfg with
      | AggCount =>
          if bool_decide (yColumn cfg = "") then xColumn cfg else yColumn cfg
      | _ => yColumn cfg
      end in
    if bool_decide (yCol = "") then
      mkState (suggestions st) (selectedCharts st)
              (Some "Please select a Y column")
              (showManualCreate st) (manualConfig st)
    else
      let newChart :=
        {| id := "chart-manual-" +:+ pretty now;
           chartType := type cfg;
           chartTitle := title cfg;
           description := chartTypeName (type cfg) +:+ " chart showing "
                          +:+ yCol +:+ " by " +:+ xColumn cfg;
           chart := chartOf (xColumn cfg) yCol (aggregation cfg);
           dataConfig := (xColumn cfg, yCol) |} in
      mkState (suggestions st ++ [newChart])
              (setAdd (id newChart) (selectedCharts st))
              (error st) false emptyManualConfig.

End Suggestions.

(** * Properties *)

(** ** The embedding on the examples of the specification *)

Example parseFloat_examples :
  parseFloat "10" = Fin 10
  /\ parseFloat " -1.5e2xyz" = Fin (-150)
  /\ parseFloat ".5" = Fin (1 # 2)
  /\ parseFloat "1,234" = Fin 1
  /\ parseFloat "x" = NaN
  /\ parseFloat "" = NaN
  /\ parseFloat "-Infinity" = NegInf
  /\ parseFloat "1e400" = PosInf.
Proof. repeat split; vm_compute; reflexivity. Qed.

Example Number_examples :
  Number "" = Fin 0
  /\ Number " 12 " = Fin 12
  /\ Number "12abc" = NaN
  /\ Number "0x1F" = Fin 31
  /\ Number "1e" = NaN.
Proof. repeat split; vm_compute; reflexivity. Qed.

Example detectDelimiter_examples :
  detectDelimiter "a;b;c,d" = ";"
  /\ detectDelimiter "abc" = ","
  /\ detectDelimiter "a,b;c" = ";".
Proof. repeat split; vm_compute; reflexivity. Qed.

Example parseCSV_example :
  parseCSV RowParser.rowParser (lines ["name, ,day"; "x,1,2020-01-02"; "y,2"])
           DEFAULT_CSV_SETTINGS
  = {| headers := ["name"; "Column 2"; "day"];
       rows := [["x"; "1"; "2020-01-02"]; ["y"; "2"]];
       columns := [ {| name := "name"; type := TString; index := 0 |};
                    {| name := "Column 2"; type := TNumber; index := 1 |};
                    {| name := "day"; type := TDate; index := 2 |} ];
       rowCount := 2 |}.
Proof. vm_compute. reflexivity. Qed.

(** Sum over rows [("A",10),("B",5),("A",3)]: two groups, A with 13 and B
    with 5, in discovery order. *)
Example sum_example :
  processChartData (dataset [["A"; "10"]; ["B"; "5"]; ["A"; "3"]])
                   (chartOf "Category" "Amount" AggSum) SortNone 20
  = [point "Category" "A" "Amount" (Fin 13);
     point "Category" "B" "Amount" (Fin 5)].
Proof. vm_compute. reflexivity. Qed.

(** Count mode without a y column: one pair per distinct non-empty x, stored
    under the key "count". *)
Example count_example :
  processChartData (dataset [["A"; "10"]; ["B"; "x"]; [" A"; ""]; [" "; "1"]])
                   (chartOf "category" "" AggCount) SortNone 20
  = [point "Category" "A" "count" (Fin 2);
     point "Category" "B" "count" (Fin 1)].
Proof. vm_compute. reflexivity. Qed.

(** Average with rounding to two decimals: (1 + 2 + 2) / 3 = 1.67. *)
Example avg_example :
  processChartData (dataset [["A"; "1"]; ["A"; "2"]; ["A"; "2"]])
                   (chartOf "Category" "Amount" AggAvg) SortNone 20
  = [point "Category" "A" "Amount" (Fin (167 # 100))].
Proof. vm_compute. reflexivity. Qed.

(** ** The dataset builder *)

Section ParseCSVFacts.

Variable Papa_parse : string -> string -> bool -> list (list string).

Lemma parseCSV_no_rows content settings :
  Papa_parse content (delimiterOf content settings) (skipEmptyLines settings) = [] ->
  parseCSV Papa_parse content settings = emptyCSVData.
Proof. intros H. unfold parseCSV. by rewrite H. Qed.

Lemma parseCSV_rows content settings :
  rows (parseCSV Papa_parse content settings)
  = if hasHeader settings
    then drop 1 (Papa_parse content (delimiterOf content settings)
                            (skipEmptyLines settings))
    else Papa_parse content (delimiterOf content settings)
                    (skipEmptyLines settings).
Proof.
  unfold parseCSV.
  destruct (Papa_parse _ _ _) as [|firstRow others]; simpl.
  - by destruct (hasHeader settings).
  - done.
Qed.

Lemma parseCSV_rowCount content settings :
  rowCount (parseCSV Papa_parse content settings)
  = length (rows (parseCSV Papa_parse content settings)).
Proof.
  unfold parseCSV.
  by destruct (Papa_parse _ _ _) as [|firstRow others].
Qed.

Lemma parseCSV_columns content settings :
  columns (parseCSV Papa_parse content settings)
  = imap (fun i h =>
            {| name := h;
               type := inferColumnType
                         (map (fun row => cellOr "" row i)
                              (rows (parseCSV Papa_parse content settings)));
               index := i |})
         (headers (parseCSV Papa_parse content settings)).
Proof.
  unfold parseCSV.
  by destruct (Papa_parse _ _ _) as [|firstRow others].
Qed.

End ParseCSVFacts.

(** C8. When the row parser yields zero rows, [parseCSV] returns the empty
    Dataset: no headers, no rows, no columns and [rowCount = 0]; it is a total
    function, so it never fails.  With the row parser of the specification,
    which gives no rows for empty text, empty input text yields that empty
    Dataset under every configuration. *)
Theorem parseCSV_zero_rows_empty_dataset :
  (forall Papa_parse content settings,
      Papa_parse content (delimiterOf content settings) (skipEmptyLines settings) = [] ->
      parseCSV Papa_parse content settings
      = {| headers := []; rows := []; columns := []; rowCount := 0 |})
  /\ (forall settings,
         parseCSV RowParser.rowParser "" settings
         = {| headers := []; rows := []; columns := []; rowCount := 0 |}).
Proof.
  split.
  - intros P content settings H. by apply parseCSV_no_rows.
  - intros settings. by apply parseCSV_no_rows.
Qed.

Lemma parseCSV_zero_rows_empty_dataset_witness :
  RowParser.rowParser "" (delimiterOf "" DEFAULT_CSV_SETTINGS)
                      (skipEmptyLines DEFAULT_CSV_SETTINGS) = []
  /\ rowCount (parseCSV RowParser.rowParser "" DEFAULT_CSV_SETTINGS) = 0%nat.
Proof.
  split; [reflexivity|].
  rewrite (proj1 parseCSV_zero_rows_empty_dataset RowParser.rowParser ""
             DEFAULT_CSV_SETTINGS); reflexivity.
Defined.

(** C7, as the code has it.  The number of rows the row parser produces equals
    the [rowCount] of the Dataset built from the same text with the same
    delimiter, plus one when [hasHeader] is true and the parser produced at
    least one row; when it produced none, both counts are 0. *)
Theorem parser_row_count_vs_rowCount Papa_parse content settings :
  let allRows :=
    Papa_parse content (delimiterOf content settings) (skipEmptyLines settings) in
  length allRows
  = (rowCount (parseCSV Papa_parse content settings)
     + if hasHeader settings && negb (length allRows =? 0)%nat then 1 else 0)%nat.
Proof.
  intros allRows. rewrite parseCSV_rowCount, parseCSV_rows.
  fold allRows. destruct allRows as [|firstRow others];
    destruct (hasHeader settings); simpl; rewrite ?length_drop; simpl; lia.
Qed.

(** C7 as stated fails on empty text with a header line expected: the parser
    gives 0 rows, the Dataset has [rowCount = 0], and 0 is not 0 + 1. *)
Lemma parser_row_count_plus_one_fails_on_empty_text :
  hasHeader DEFAULT_CSV_SETTINGS = true
  /\ length (RowParser.rowParser "" (delimiterOf "" DEFAULT_CSV_SETTINGS)
                                 (skipEmptyLines DEFAULT_CSV_SETTINGS))
     <> (rowCount (parseCSV RowParser.rowParser "" DEFAULT_CSV_SETTINGS) + 1)%nat.
Proof. split; [reflexivity | vm_compute; lia]. Qed.

(** C9, as the code has it.  In every Dataset returned by [parseCSV] the
    columns are aligned one to one with the headers, [columns[i]] has index
    [i] and the name [headers[i]], and [rowCount] is the length of [rows].
    The rows are the parser's rows as they are (all of them, or all but the
    first when it is the header line), neither padded nor cut to the header
    width; a cell absent at a column's index is read as the empty string when
    the column's type is inferred. *)
Theorem parseCSV_dataset_shape Papa_parse content settings :
  let allRows :=
    Papa_parse content (delimiterOf content settings) (skipEmptyLines settings) in
  let data := parseCSV Papa_parse content settings in
  map name (columns data) = headers data
  /\ map index (columns data) = seq 0 (length (headers data))
  /\ map type (columns data)
     = map (fun i => inferColumnType
                       (map (fun row => default "" (row !! i)) (rows data)))
           (seq 0 (length (headers data)))
  /\ rowCount data = length (rows data)
  /\ rows data = (if hasHeader settings then drop 1 allRows else allRows).
Proof.
  intros allRows data. subst data allRows.
  rewrite parseCSV_rowCount, <- parseCSV_rows, parseCSV_columns.
  set (rs := rows _). set (hs := headers _).
  assert (Hgen : forall (l : list string) (k : nat),
    map name (imap (fun i h => {| name := h;
        type := inferColumnType (map (fun row => cellOr "" row (k + i)) rs);
        index := (k + i)%nat |}) l) = l
    /\ map index (imap (fun i h => {| name := h;
        type := inferColumnType (map (fun row => cellOr "" row (k + i)) rs);
        index := (k + i)%nat |}) l) = seq k (length l)
    /\ map type (imap (fun i h => {| name := h;
        type := inferColumnType (map (fun row => cellOr "" row (k + i)) rs);
        index := (k + i)%nat |}) l)
       = map (fun i => inferColumnType
                         (map (fun row => default "" (row !! i)) rs))
             (seq k (length l))).
  { induction l as [|h l IH]; intros k; [done|].
    simpl. rewrite Nat.add_0_r.
    destruct (IH (S k)) as (IH1 & IH2 & IH3).
    unfold compose.
    rewrite (imap_ext _ (fun i h0 => {| name := h0;
        type := inferColumnType (map (fun row => cellOr "" row (S k + i)) rs);
        index := (S k + i)%nat |}) l)
      by (intros; simpl; by rewrite Nat.add_succ_r).
    rewrite IH1, IH2, IH3. done. }
  destruct (Hgen hs 0%nat) as (H1 & H2 & H3). simpl in *. done.
Qed.

(** C9 as stated fails: a data line with more fields than the header line
    stays as long as it is. *)
Lemma parseCSV_row_longer_than_headers :
  headers (parseCSV RowParser.rowParser raggedText DEFAULT_CSV_SETTINGS) = ["a"]
  /\ rows (parseCSV RowParser.rowParser raggedText DEFAULT_CSV_SETTINGS)
     = [["1"; "2"]]
  /\ ~ Forall (fun row =>
                 length row
                 = length (headers (parseCSV RowParser.rowParser raggedText
                                             DEFAULT_CSV_SETTINGS)))
              (rows (parseCSV RowParser.rowParser raggedText DEFAULT_CSV_SETTINGS)).
Proof.
  repeat split. vm_compute. intros H. by inversion H.
Qed.

(** ** Column type inference *)

Lemma sampleOf_take values :
  sampleOf values = filter (fun v => trim v <> "") (take 100 values).
Proof.
  unfold sampleOf. f_equal.
  destruct (Nat.le_ge_cases (length values) 100) as [H|H].
  - rewrite Nat.min_l by done. by rewrite !take_ge.
  - by rewrite Nat.min_r.
Qed.

Lemma forallb_Forall {A} (p : A -> bool) (l : list A) :
  forallb p l = true <-> Forall (fun v => p v = true) l.
Proof.
  rewrite forallb_forall, Forall_forall.
  split; intros H x Hx; apply H; by apply list_elem_of_In.
Qed.

Lemma forallb_Exists {A} (p : A -> bool) (l : list A) :
  forallb p l = false <-> Exists (fun v => p v = false) l.
Proof.
  induction l as [|x l IH]; simpl.
  - split; [done | by inversion 1].
  - rewrite andb_false_iff, Exists_cons, IH. done.
Qed.

(** C5, as the code has it.  [inferColumnType] is a total function of the
    column.  Its sample is made of the non-empty values among the first 100
    values of the column.  When that sample is empty the type is string;
    otherwise the type is the first rule that every sampled value satisfies,
    in the order boolean, number, date, and string when none does.  The column
    ["0","1","0"] is boolean, not number. *)
Theorem inferColumnType_precedence (values : list string) :
  let sample := filter (fun v => trim v <> "") (take 100 values) in
  let all (p : string -> bool) := Forall (fun v => p v = true) sample in
  let some_not (p : string -> bool) := Exists (fun v => p v = false) sample in
  (sample = [] -> inferColumnType values = TString)
  /\ (sample <> [] -> all isBooleanValue -> inferColumnType values = TBoolean)
  /\ (some_not isBooleanValue -> all isNumberValue ->
      inferColumnType values = TNumber)
  /\ (some_not isBooleanValue -> some_not isNumberValue -> all isDateValue ->
      inferColumnType values = TDate)
  /\ (some_not isBooleanValue -> some_not isNumberValue ->
      some_not isDateValue -> inferColumnType values = TString)
  /\ inferColumnType ["0"; "1"; "0"] = TBoolean.
Proof.
  intros sample all some_not. subst all some_not.
  unfold inferColumnType. rewrite sampleOf_take. fold sample.
  assert (Hne : Exists (fun v => isBooleanValue v = false) sample ->
                (length sample =? 0)%nat = false).
  { intros H. destruct sample; [by inversion H | done]. }
  repeat split.
  - intros ->. done.
  - intros Hs Hb. destruct sample; [done|]. simpl length. simpl Nat.eqb.
    apply forallb_Forall in Hb. by rewrite Hb.
  - intros Hb Hn. rewrite (Hne Hb).
    apply forallb_Exists in Hb. apply forallb_Forall in Hn. by rewrite Hb, Hn.
  - intros Hb Hn Hd. rewrite (Hne Hb).
    apply forallb_Exists in Hb, Hn. apply forallb_Forall in Hd.
    by rewrite Hb, Hn, Hd.
  - intros Hb Hn Hd. rewrite (Hne Hb).
    apply forallb_Exists in Hb, Hn, Hd. by rewrite Hb, Hn, Hd.
Qed.

Lemma inferColumnType_precedence_witness :
  filter (fun v => trim v <> "") (take 100 ["1,234"; ""; " 12 "])
  = ["1,234"; " 12 "]
  /\ Exists (fun v => isBooleanValue v = false) ["1,234"; " 12 "]
  /\ Forall (fun v => isNumberValue v = true) ["1,234"; " 12 "]
  /\ inferColumnType ["1,234"; ""; " 12 "] = TNumber.
Proof.
  assert (Hb : Exists (fun v => isBooleanValue v = false) ["1,234"; " 12 "])
    by (apply Exists_cons_hd; reflexivity).
  assert (Hn : Forall (fun v => isNumberValue v = true) ["1,234"; " 12 "])
    by (repeat constructor).
  split; [reflexivity|]. split; [exact Hb|]. split; [exact Hn|].
  exact (proj1 (proj2 (proj2 (inferColumnType_precedence ["1,234"; ""; " 12 "])))
           Hb Hn).
Defined.

(** C5 as stated fails.  The column below has "1" first, then 99 empty values,
    then "abc".  Its first non-empty values are "1" and "abc", which are not
    all boolean, number or date, so a sample made of them gives string; the
    code samples the first 100 values only, keeps "1", and answers boolean. *)
Lemma inferColumnType_samples_a_prefix :
  firstNonEmptyValues ("1" :: replicate 99 "" ++ ["abc"]) = ["1"; "abc"]
  /\ inferColumnType_spec ("1" :: replicate 99 "" ++ ["abc"]) = TString
  /\ inferColumnType ("1" :: replicate 99 "" ++ ["abc"]) = TBoolean.
Proof. repeat split; vm_compute; reflexivity. Qed.

(** ** Facts about numbers *)

Arguments ltb !_ !_ /.
Arguments isNaN !_ /.

Lemma fin_cases (q : Q) :
  (fin q = PosInf /\ (0 < q)%Q)
  \/ (fin q = NegInf /\ (q < 0)%Q)
  \/ (exists r, fin q = Fin r /\ (r == q)%Q).
Proof.
  unfold fin.
  destruct (Qle_bool (inject_Z overflowBound) q) eqn:Hp.
  - left. split; [done|]. apply Qle_bool_iff in Hp.
    eapply Qlt_le_trans; [|exact Hp]. done.
  - destruct (Qle_bool q (inject_Z (- overflowBound))) eqn:Hn.
    + right; left. split; [done|]. apply Qle_bool_iff in Hn.
      eapply Qle_lt_trans; [exact Hn|]. done.
    + right; right. exists (Qred q). split; [done | apply Qred_correct].
Qed.

Lemma Qle_bool_false (x y : Q) : Qle_bool x y = false <-> (y < x)%Q.
Proof.
  split.
  - intros H. apply Qnot_le_lt. intros Hle. apply Qle_bool_iff in Hle. congruence.
  - intros H. destruct (Qle_bool x y) eqn:E; [|done].
    apply Qle_bool_iff in E. lra.
Qed.

(** The sign of [a - b] tells whether [b < a], for all numbers. *)
Lemma ltb_zero_sub (a b : number) : ltb (Fin 0) (sub a b) = ltb b a.
Proof.
  destruct a as [| | |x], b as [| | |y]; try reflexivity.
  unfold sub, neg, add.
  destruct (fin_cases (x + Qred (- y))) as [[-> H]|[[-> H]|(r & -> & H)]];
    rewrite Qred_correct in H; simpl.
  - symmetry. apply negb_true_iff, Qle_bool_false. lra.
  - symmetry. apply negb_false_iff, Qle_bool_iff. lra.
  - f_equal. destruct (Qle_bool x y) eqn:Hxy.
    + apply Qle_bool_iff in Hxy. apply Qle_bool_iff. lra.
    + apply Qle_bool_false in Hxy. apply Qle_bool_false. lra.
Qed.

Lemma ltb_asym (a b : number) : ltb a b = true -> ltb b a = false.
Proof.
  destruct a as [| | |x], b as [| | |y]; simpl; try done.
  rewrite negb_true_iff, negb_false_iff, Qle_bool_false, Qle_bool_iff. lra.
Qed.

Lemma ltb_eqb (a b v : number) :
  eqb a v = true -> eqb b v = true -> ltb a b = false.
Proof.
  destruct a as [| | |x], b as [| | |y], v as [| | |z]; simpl; try done.
  rewrite !Qeq_bool_iff, negb_false_iff, Qle_bool_iff. lra.
Qed.

Lemma parseFloat_zero : parseFloat "0" = Fin 0.
Proof. reflexivity. Qed.

(** ** Facts about points *)

Lemma numberProp_point xCol xv yCol yv :
  numberProp (point xCol xv yCol yv) yCol = yv.
Proof.
  unfold point, numberProp. case_bool_decide as H; simpl.
  - subst. by rewrite bool_decide_true.
  - by rewrite bool_decide_false, bool_decide_true.
Qed.

Lemma prop_point_x xCol xv yCol yv :
  xCol <> yCol -> prop (point xCol xv yCol yv) xCol = Some (VString xv).
Proof.
  intros H. unfold point. rewrite bool_decide_false by done. simpl.
  by rewrite bool_decide_true.
Qed.

(** ** Facts about [slice] and [sort] *)

Lemma Array_slice_take {A} (l : list A) (e : Z) :
  0 <= e -> Array_slice l e = take (Z.to_nat e) l.
Proof.
  intros He. unfold Array_slice.
  destruct (e <? 0) eqn:Hlt; [lia|].
  destruct (Z.le_ge_cases e (Z.of_nat (length l))).
  - by rewrite Z.min_l.
  - rewrite Z.min_r, Nat2Z.id by lia. rewrite !take_ge; [done|lia|lia].
Qed.

Section Sorting.

Context {A : Type} (comparefn : A -> A -> number).

Lemma insertSorted_Permutation x l : insertSorted comparefn x l ≡ₚ x :: l.
Proof.
  induction l as [|y l IH]; simpl; [done|].
  destruct (ltb (Fin 0) (comparefn x y)); [|done].
  rewrite IH. apply Permutation_swap.
Qed.

Lemma Array_sort_Permutation l : Array_sort comparefn l ≡ₚ l.
Proof.
  induction l as [|x l IH]; simpl; [done|].
  rewrite insertSorted_Permutation. by rewrite IH.
Qed.

Hypothesis after_asym : forall x y, after comparefn x y = true -> after comparefn y x = false.

Lemma insertSorted_Sorted x l :
  Sorted (fun a b => after comparefn a b = false) l ->
  Sorted (fun a b => after comparefn a b = false) (insertSorted comparefn x l).
Proof.
  induction 1 as [|y l Hl IH Hhd]; simpl.
  - by repeat constructor.
  - fold (after comparefn x y). destruct (after comparefn x y) eqn:Hxy.
    + constructor; [done|].
      destruct Hhd as [|z l' Hyz]; simpl.
      * constructor. by apply after_asym.
      * fold (after comparefn x z). destruct (after comparefn x z); constructor;
          [done | by apply after_asym].
    + constructor; [by constructor | by constructor].
Qed.

Lemma Array_sort_Sorted l :
  Sorted (fun a b => after comparefn a b = false) (Array_sort comparefn l).
Proof.
  induction l as [|x l IH]; simpl; [constructor|].
  by apply insertSorted_Sorted.
Qed.

(** Stability: the elements selected by [P] keep their order, as long as the
    comparator never asks for one of them to go after another. *)
Lemma Array_sort_stable (P : A -> Prop) `{!forall a, Decision (P a)} l :
  (forall x y, P x -> P y -> after comparefn x y = false) ->
  filter P (Array_sort comparefn l) = filter P l.
Proof.
  intros HP.
  assert (Hins : forall x s,
    filter P (insertSorted comparefn x s) = filter P (x :: s)).
  { intros x s. induction s as [|y s IH]; simpl; [done|].
    fold (after comparefn x y). destruct (after comparefn x y) eqn:Hxy; [|done].
    rewrite (filter_cons _ y), IH, !filter_cons.
    destruct (decide (P x)) as [Hx|Hx]; [|done].
    destruct (decide (P y)) as [Hy|Hy]; [|done].
    by rewrite HP in Hxy. }
  induction l as [|x l IH]; simpl; [done|].
  rewrite Hins, !filter_cons, IH. done.
Qed.

End Sorting.

(** The order of the sort does not look at anything but the comparator's
    answers. *)
Lemma Array_sort_map {A B} (f : A -> B) (cmpA : A -> A -> number)
    (cmpB : B -> B -> number) (l : list A) :
  (forall a b, cmpB (f a) (f b) = cmpA a b) ->
  Array_sort cmpB (map f l) = map f (Array_sort cmpA l).
Proof.
  intros H.
  assert (Hins : forall x s,
    insertSorted cmpB (f x) (map f s) = map f (insertSorted cmpA x s)).
  { intros x s. induction s as [|y s IH]; simpl; [done|].
    rewrite H. destruct (ltb (Fin 0) (cmpA x y)); simpl; [by rewrite IH | done]. }
  induction l as [|x l IH]; simpl; [done|].
  by rewrite IH, Hins.
Qed.

(** ** The stages of the pipeline *)

Lemma processChartData_stages data chart sortOrder limit :
  processChartData data chart sortOrder limit
  = Array_slice (sortPoints sortOrder (yColOf data chart)
                            (producedPoints data chart limit)) limit.
Proof.
  unfold processChartData, producedPoints.
  destruct (findColumn (columns data) (xAxis chart)); [done|].
  destruct sortOrder; simpl; unfold Array_slice; by rewrite take_nil.
Qed.

(** C3. When no column name equals the chart's [xAxis] up to letter case,
    [processChartData] returns the empty sequence, whatever the aggregation
    kind, the sort order and the limit; being a total function it does not
    fail. *)
Theorem unresolved_x_column_yields_empty data chart sortOrder limit :
  Forall (fun c => toLowerCase (name c) <> toLowerCase (xAxis chart))
         (columns data) ->
  processChartData data chart sortOrder limit = [].
Proof.
  intros H. unfold processChartData, findColumn.
  assert (Hnone : list_find
            (fun c => toLowerCase (name c) = toLowerCase (xAxis chart))
            (columns data) = None) by (by apply list_find_None).
  by rewrite Hnone.
Qed.

Lemma unresolved_x_column_yields_empty_witness :
  Forall (fun c => toLowerCase (name c) <> toLowerCase "Region")
         (columns (dataset [["A"; "10"]; ["B"; "5"]]))
  /\ processChartData (dataset [["A"; "10"]; ["B"; "5"]])
                      (chartOf "Region" "Amount" AggCount) SortDesc 20 = [].
Proof.
  assert (H : Forall (fun c => toLowerCase (name c) <> toLowerCase "Region")
                     (columns (dataset [["A"; "10"]; ["B"; "5"]])))
    by (repeat constructor; vm_compute; discriminate).
  split; [exact H|].
  exact (unresolved_x_column_yields_empty
           (dataset [["A"; "10"]; ["B"; "5"]])
           (chartOf "Region" "Amount" AggCount) SortDesc 20 H).
Defined.

(** ** Sorting and limiting *)

Lemma after_compareY sortOrder yCol a b :
  after (compareY sortOrder yCol) a b
  = match sortOrder with
    | SortDesc => ltb (numberProp a yCol) (numberProp b yCol)
    | _ => ltb (numberProp b yCol) (numberProp a yCol)
    end.
Proof. unfold after, compareY. destruct sortOrder; apply ltb_zero_sub. Qed.

Lemma Sorted_weaken {A} (R S : A -> A -> Prop) (l : list A) :
  (forall a b, R a b -> S a b) -> Sorted R l -> Sorted S l.
Proof.
  intros HRS. induction 1 as [|x l Hl IH Hhd]; constructor; [done|].
  destruct Hhd; constructor. by apply HRS.
Qed.



(** ** Raw mode *)

Lemma filter_rawPoint xCol xIdx yCol (yi : nat) (l : list (list string)) :
  filter (fun item => isNaN (numberProp item yCol) = false)
         (map (rawPoint xCol xIdx yCol (Z.of_nat yi)) l)
  = map (rawPoint xCol xIdx yCol (Z.of_nat yi))
        (filter (fun row => isNaN (yValueOf yi row) = false) l).
Proof.
  induction l as [|row l IH]; [done|].
  rewrite map_cons, !filter_cons, IH.
  assert (E : numberProp (rawPoint xCol xIdx yCol (Z.of_nat yi) row) yCol
              = yValueOf yi row).
  { unfold rawPoint, yValueOf, cellOr. by rewrite numberProp_point, Nat2Z.id. }
  destruct (decide (isNaN (numberProp (rawPoint xCol xIdx yCol (Z.of_nat yi) row)
                                      yCol) = false)) as [H1|H1],
           (decide (isNaN (yValueOf yi row) = false)) as [H2|H2];
    try done; rewrite E in H1; contradiction.
Qed.

Lemma raw_slice {A} (l : list A) (limit : Z) :
  0 <= limit ->
  Array_slice l (Z.min (limit * 2) (Z.of_nat (length l)))
  = take (2 * Z.to_nat limit) l.
Proof.
  intros H. rewrite Array_slice_take by lia.
  destruct (Z.le_ge_cases (limit * 2) (Z.of_nat (length l))).
  - rewrite Z.min_l by done. f_equal. lia.
  - rewrite Z.min_r, Nat2Z.id by lia. rewrite !take_ge; [done|lia|lia].
Qed.

(** C4, as the code has it.  In raw mode, with the x and y columns resolved
    and a limit that is a count, the pipeline takes the first [2 × limit]
    rows of the dataset in their order, reads the y cell of each with
    [parseFloat] (a row with no cell at the y index reads as "0"), drops
    exactly the rows whose y reads as NaN, and maps each remaining row to the
    pair of its raw x cell and its y number; a y cell such as "Infinity" is
    not NaN and its row is kept.  The pairs are then sorted as requested and
    cut to [limit] entries.  Rows [("A","10"),("B","x")] give the A row
    only. *)
Theorem raw_mode_points data chart sortOrder limit xc yc :
  aggregation chart = AggNone ->
  0 <= limit ->
  findColumn (columns data) (xAxis chart) = Some xc ->
  findColumn (columns data) (yAxis chart) = Some yc ->
  let kept :=
    filter (fun row => isNaN (yValueOf (index yc) row) = false)
           (take (2 * Z.to_nat limit) (rows data)) in
  processChartData data chart sortOrder limit
  = take (Z.to_nat limit)
      (sortPoints sortOrder (name yc)
         (map (fun row => point (name xc) (default "" (row !! index xc))
                                (name yc) (yValueOf (index yc) row)) kept))
  /\ processChartData (dataset [["A"; "10"]; ["B"; "x"]])
                      (chartOf "Category" "Amount" AggNone) SortNone 20
     = [point "Category" "A" "Amount" (Fin 10)].
Proof.
  intros Hagg Hlimit Hx Hy kept. split; [|by vm_compute].
  unfold processChartData. rewrite Hx, Hy. simpl.
  rewrite Array_slice_take by done.
  unfold unsortedPoints. rewrite Hagg.
  assert (Hidx : (0 <=? Z.of_nat (index yc)) = true) by (apply Z.leb_le; lia).
  rewrite Hidx. unfold rawPoints.
  rewrite raw_slice, filter_rawPoint by done.
  do 2 f_equal. apply map_ext. intros row.
  unfold rawPoint, yValueOf, cellOr. by rewrite Nat2Z.id.
Qed.

Lemma raw_mode_points_witness :
  aggregation (chartOf "category" "AMOUNT" AggNone) = AggNone
  /\ 0 <= 2
  /\ processChartData
       (dataset [["A"; "7"]; ["B"; "x"]; ["C"; "1.5"]; ["D"; "2"]; ["E"; "9"]])
       (chartOf "category" "AMOUNT" AggNone) SortAsc 2
     = [point "Category" "C" "Amount" (Fin (3 # 2));
        point "Category" "D" "Amount" (Fin 2)].
Proof.
  split; [reflexivity|]. split; [lia|].
  rewrite (proj1 (raw_mode_points
    (dataset [["A"; "7"]; ["B"; "x"]; ["C"; "1.5"]; ["D"; "2"]; ["E"; "9"]])
    (chartOf "category" "AMOUNT" AggNone) SortAsc 2
    {| name := "Category"; type := TString; index := 0 |}
    {| name := "Amount"; type := TNumber; index := 1 |}
    eq_refl ltac:(lia) eq_refl eq_refl)).
  vm_compute. reflexivity.
Defined.

(** C4 as stated fails: the y cell "Infinity" does not parse as a finite
    number, and its row is kept, with an infinite y. *)
Lemma raw_mode_keeps_infinite_y :
  isFinite (parseFloat "Infinity") = false
  /\ processChartData (dataset [["A"; "Infinity"]])
                      (chartOf "Category" "Amount" AggNone) SortNone 20
     = [point "Category" "A" "Amount" PosInf].
Proof. split; vm_compute; reflexivity. Qed.

(** ** Rows without a y cell *)

(** C10. A row with no cell at the y column's index has its y read as the
    string "0".  In aggregated sum, avg, min or max mode, when its trimmed x
    is not empty, the row adds 0 to the sum of its group, adds one to the
    group's count and enters the group's min and max as 0.  In raw mode the
    row gives a point whose y is 0, which the NaN filter keeps. *)
Theorem missing_y_cell_reads_as_zero (row : list string) (xIdx yIdx : nat) :
  row !! yIdx = None ->
  (forall groups,
      trim (cellOr "" row xIdx) <> "" ->
      let xVal := trim (cellOr "" row xIdx) in
      let current :=
        default (Group.mk (Fin 0) 0 PosInf NegInf) (mapGet groups xVal) in
      accumulate false xIdx (Z.of_nat yIdx) groups row
      = mapSet xVal
          (Group.mk (add (Group.sum current) (Fin 0))
                    (Group.count current + 1)
                    (Math_min (Group.min current) (Fin 0))
                    (Math_max (Group.max current) (Fin 0))) groups)
  /\ (forall xCol yCol,
         rawPoint xCol xIdx yCol (Z.of_nat yIdx) row
         = point xCol (cellOr "" row xIdx) yCol (Fin 0)
         /\ isNaN (numberProp (rawPoint xCol xIdx yCol (Z.of_nat yIdx) row) yCol)
            = false).
Proof.
  intros Hrow.
  assert (Hy : cellOr "0" row yIdx = "0") by (unfold cellOr; by rewrite Hrow).
  split.
  - intros groups Hx xVal current. unfold accumulate.
    rewrite bool_decide_false by done.
    assert (Hidx : (0 <=? Z.of_nat yIdx) = true) by (apply Z.leb_le; lia).
    rewrite Hidx, Nat2Z.id, !Hy, parseFloat_zero. done.
  - intros xCol yCol. unfold rawPoint.
    by rewrite numberProp_point, Nat2Z.id, !Hy, parseFloat_zero.
Qed.

Lemma missing_y_cell_reads_as_zero_witness :
  ["A"] !! 1%nat = None
  /\ processChartData (dataset [["A"; "4"]; ["A"]])
                      (chartOf "Category" "Amount" AggAvg) SortNone 20
     = [point "Category" "A" "Amount" (Fin 2)]
  /\ rawPoint "Category" 0 "Amount" 1 ["A"]
     = point "Category" "A" "Amount" (Fin 0).
Proof.
  split; [reflexivity|]. split; [vm_compute; reflexivity|].
  exact (proj1 (proj2 (missing_y_cell_reads_as_zero ["A"] 0 1 eq_refl)
                  "Category" "Amount")).
Defined.

(** ** Aggregated mode *)

Lemma firstAppearances_snoc keys k :
  firstAppearances (keys ++ [k])
  = if bool_decide (k ∈ firstAppearances keys) then firstAppearances keys
    else firstAppearances keys ++ [k].
Proof. unfold firstAppearances. by rewrite fold_left_app. Qed.

Lemma firstAppearances_elem_of keys k :
  k ∈ firstAppearances keys <-> k ∈ keys.
Proof.
  induction keys as [|x keys IH] using rev_ind.
  - done.
  - rewrite firstAppearances_snoc, elem_of_app, list_elem_of_singleton.
    case_bool_decide as Hx.
    + rewrite IH. split; [tauto|]. intros [?| ->]; [done|]. by apply IH.
    + rewrite elem_of_app, list_elem_of_singleton, IH. tauto.
Qed.

Lemma firstAppearances_NoDup keys : NoDup (firstAppearances keys).
Proof.
  induction keys as [|x keys IH] using rev_ind.
  - constructor.
  - rewrite firstAppearances_snoc. case_bool_decide as Hx; [done|].
    apply NoDup_app. split; [done|]. split; [|apply NoDup_singleton].
    intros y Hy ->%list_elem_of_singleton. done.
Qed.

Lemma mapGet_keyed (F : string -> Group.stats) (keys : list string) (k : string) :
  mapGet (map (fun key => (key, F key)) keys) k
  = if bool_decide (k ∈ keys) then Some (F k) else None.
Proof.
  induction keys as [|x keys IH]; [done|].
  cbn [map mapGet]. rewrite IH.
  destruct (decide (x = k)) as [->|Hne].
  - by rewrite !bool_decide_true by (done || apply list_elem_of_here).
  - rewrite (bool_decide_false (x = k)) by done.
    replace (bool_decide (k ∈ x :: keys)) with (bool_decide (k ∈ keys)); [done|].
    apply bool_decide_ext. rewrite elem_of_cons.
    split; [tauto|]. intros [->|?]; done.
Qed.

Lemma mapSet_keyed (F F' : string -> Group.stats) (keys : list string)
    (k : string) (v : Group.stats) :
  NoDup keys ->
  (forall key, key <> k -> F' key = F key) ->
  F' k = v ->
  mapSet k v (map (fun key => (key, F key)) keys)
  = map (fun key => (key, F' key))
        (if bool_decide (k ∈ keys) then keys else keys ++ [k]).
Proof.
  intros Hnd Hother Hk.
  induction keys as [|x keys IH].
  - cbn. rewrite bool_decide_false by apply not_elem_of_nil. cbn.
    by rewrite Hk.
  - apply NoDup_cons in Hnd as [Hx Hnd]. specialize (IH Hnd).
    cbn [map mapSet].
    destruct (decide (x = k)) as [->|Hne].
    + rewrite !bool_decide_true by (done || apply list_elem_of_here).
      cbn [map]. rewrite Hk. f_equal.
      apply map_ext_in. intros key Hin%list_elem_of_In.
      rewrite Hother; [done|]. by intros ->.
    + rewrite (bool_decide_false (x = k)) by done. rewrite IH.
      replace (bool_decide (k ∈ x :: keys)) with (bool_decide (k ∈ keys)).
      2:{ apply bool_decide_ext. rewrite elem_of_cons.
          split; [tauto|]. intros [->|?]; done. }
      rewrite <- (Hother x) by done. by case_bool_decide.
Qed.

Lemma groupValues_snoc xIdx yIdx key rows row :
  groupValues xIdx yIdx key (rows ++ [row])
  = groupValues xIdx yIdx key rows
    ++ (if decide (feeds xIdx yIdx row /\ xKeyOf xIdx row = key)
        then [yValueOf yIdx row] else []).
Proof.
  unfold groupValues. rewrite filter_app, map_app. f_equal.
  rewrite filter_cons, filter_nil. by case_decide.
Qed.

Lemma groupKeys_snoc xIdx yIdx rows row :
  groupKeys xIdx yIdx (rows ++ [row])
  = if decide (feeds xIdx yIdx row)
    then (if bool_decide (xKeyOf xIdx row ∈ groupKeys xIdx yIdx rows)
          then groupKeys xIdx yIdx rows
          else groupKeys xIdx yIdx rows ++ [xKeyOf xIdx row])
    else groupKeys xIdx yIdx rows.
Proof.
  unfold groupKeys. rewrite filter_app, filter_cons, filter_nil.
  case_decide.
  - rewrite map_app. cbn [map]. by rewrite firstAppearances_snoc.
  - by rewrite app_nil_r.
Qed.

Lemma groupKeys_elem_of xIdx yIdx rows key :
  key ∈ groupKeys xIdx yIdx rows
  <-> key <> ""
      /\ exists row, row ∈ rows /\ xKeyOf xIdx row = key
                     /\ isNaN (yValueOf yIdx row) = false.
Proof.
  unfold groupKeys. rewrite firstAppearances_elem_of, list_elem_of_In, in_map_iff.
  split.
  - intros (row & <- & Hin). apply list_elem_of_In, list_elem_of_filter in Hin.
    destruct Hin as [[Hx Hy] Hin]. split; [done|]. by exists row.
  - intros (Hkey & row & Hin & <- & Hy). exists row. split; [done|].
    apply list_elem_of_In, list_elem_of_filter. by repeat split.
Qed.

Lemma groupValues_nil_iff xIdx yIdx rows key :
  key ∉ groupKeys xIdx yIdx rows -> groupValues xIdx yIdx key rows = [].
Proof.
  intros Hkey. unfold groupValues.
  destruct (filter _ rows) as [|row l] eqn:Hf; [done|].
  exfalso. apply Hkey.
  assert (Hin : row ∈ filter
            (fun row => feeds xIdx yIdx row /\ xKeyOf xIdx row = key) rows)
    by (rewrite Hf; apply list_elem_of_here).
  apply list_elem_of_filter in Hin as [[[Hx Hy] Hk] Hin].
  apply groupKeys_elem_of. split; [by rewrite <- Hk|]. by exists row.
Qed.

(** The groups after the rows have been scanned: one group per key, in
    discovery order, holding the accumulators of the key's y numbers. *)
Lemma groupRows_keyed xIdx yIdx rows :
  groupRows false xIdx (Z.of_nat yIdx) rows
  = map (fun key => (key, statsOf (groupValues xIdx yIdx key rows)))
        (groupKeys xIdx yIdx rows).
Proof.
  unfold groupRows.
  induction rows as [|row rows IH] using rev_ind; [done|].
  rewrite fold_left_app. simpl. rewrite IH. clear IH.
  unfold accumulate.
  assert (Hidx : (0 <=? Z.of_nat yIdx) = true) by (apply Z.leb_le; lia).
  rewrite Hidx, Nat2Z.id. clear Hidx.
  change (trim (cellOr "" row xIdx)) with (xKeyOf xIdx row).
  change (parseFloat (cellOr "0" row yIdx)) with (yValueOf yIdx row).
  rewrite groupKeys_snoc.
  assert (Hskip : ~ feeds xIdx yIdx row ->
    map (fun key => (key, statsOf (groupValues xIdx yIdx key rows)))
        (groupKeys xIdx yIdx rows)
    = map (fun key => (key, statsOf (groupValues xIdx yIdx key (rows ++ [row]))))
          (groupKeys xIdx yIdx rows)).
  { intros Hno. apply map_ext. intros key. rewrite groupValues_snoc.
    rewrite decide_False by tauto. by rewrite app_nil_r. }
  case_bool_decide as Hx.
  { rewrite decide_False by (unfold feeds; tauto). apply Hskip.
    unfold feeds; tauto. }
  destruct (isNaN (yValueOf yIdx row)) eqn:Hy; simpl.
  { rewrite decide_False by (unfold feeds; rewrite Hy; intros [_ ?]; done).
    apply Hskip. unfold feeds. rewrite Hy. intros [_ ?]; done. }
  assert (Hfeeds : feeds xIdx yIdx row) by done.
  rewrite decide_True by done.
  rewrite mapGet_keyed.
  apply mapSet_keyed; [apply firstAppearances_NoDup| |].
  - intros key Hne. rewrite groupValues_snoc.
    rewrite decide_False by (intros [_ ?]; done). by rewrite app_nil_r.
  - rewrite groupValues_snoc, decide_True by done.
    unfold statsOf at 1. rewrite fold_left_app. simpl.
    case_bool_decide as Hin; simpl; [done|].
    by rewrite groupValues_nil_iff.
Qed.

(** *** Running extrema *)

Lemma ltb_neg_trans (a b c : number) :
  isNaN b = false -> ltb a c = true -> ltb a b = true \/ ltb b c = true.
Proof.
  destruct a as [| | |x], b as [| | |y], c as [| | |z]; simpl; try done;
    try (by left); try (by right).
  rewrite !negb_true_iff, !Qle_bool_false. intros _ H.
  destruct (Qlt_le_dec x y); [by left|right; lra].
Qed.

Lemma ltb_irrefl (a : number) : ltb a a = false.
Proof.
  destruct a as [| | |x]; simpl; try done.
  apply negb_false_iff, Qle_bool_iff. lra.
Qed.

Section Extremum.

(** [pick] keeps the more extreme of two numbers and [beats u v] says that
    [u] is strictly more extreme than [v]. *)
Variable pick : number -> number -> number.
Variable beats : number -> number -> bool.

Hypothesis pick_def : forall a y,
  isNaN a = false -> isNaN y = false -> pick a y = if beats y a then y else a.
Hypothesis beats_neg_trans : forall a b c,
  isNaN b = false -> beats a c = true -> beats a b = true \/ beats b c = true.
Hypothesis beats_asym : forall a b, beats a b = true -> beats b a = false.
Hypothesis beats_irrefl : forall a, beats a a = false.

Lemma running_extremum (ys : list number) (a : number) :
  isNaN a = false ->
  Forall (fun y => isNaN y = false) ys ->
  isNaN (fold_left pick ys a) = false
  /\ (fold_left pick ys a = a \/ fold_left pick ys a ∈ ys)
  /\ beats a (fold_left pick ys a) = false
  /\ Forall (fun y => beats y (fold_left pick ys a) = false) ys.
Proof.
  intros Ha Hys. revert a Ha.
  induction Hys as [|y ys Hy Hys IH]; intros a Ha; simpl.
  - repeat split; auto.
  - assert (Hpick := pick_def a y Ha Hy).
    assert (Hnan : isNaN (pick a y) = false)
      by (rewrite Hpick; by destruct (beats y a)).
    destruct (IH (pick a y) Hnan) as (Hr & Hin & Hbeat & Hall).
    set (r := fold_left pick ys (pick a y)) in *.
    assert (Ha' : beats a (pick a y) = false).
    { rewrite Hpick. destruct (beats y a) eqn:E; [by apply beats_asym | done]. }
    assert (Hy' : beats y (pick a y) = false).
    { rewrite Hpick. destruct (beats y a) eqn:E; [done | done]. }
    repeat split.
    + done.
    + destruct Hin as [Hin|Hin].
      * rewrite Hin, Hpick. destruct (beats y a); [right; left | by left].
      * right. by right.
    + destruct (beats a r) eqn:E; [|done].
      destruct (beats_neg_trans a (pick a y) r Hnan E); congruence.
    + constructor; [|done].
      destruct (beats y r) eqn:E; [|done].
      destruct (beats_neg_trans y (pick a y) r Hnan E); congruence.
Qed.

End Extremum.

Lemma statsOf_min_max (ys : list number) :
  Group.min (statsOf ys) = fold_left Math_min ys PosInf
  /\ Group.max (statsOf ys) = fold_left Math_max ys NegInf.
Proof.
  unfold statsOf.
  assert (H : forall st,
    Group.min (fold_left statsStep ys st) = fold_left Math_min ys (Group.min st)
    /\ Group.max (fold_left statsStep ys st) = fold_left Math_max ys (Group.max st)).
  { induction ys as [|y ys IH]; intros st; simpl; [done|]. apply IH. }
  apply (H (Group.mk (Fin 0) 0 PosInf NegInf)).
Qed.

Lemma groupValue_extremum (agg : AggregationType) (ys : list number) :
  agg = AggMin \/ agg = AggMax ->
  groupValue agg (statsOf ys) = resetSentinel agg (extremumOf agg ys).
Proof.
  destruct (statsOf_min_max ys) as [Hmin Hmax].
  intros [->| ->]; unfold groupValue, resetSentinel, extremumOf;
    [rewrite Hmin; by destruct (fold_left Math_min ys PosInf)
    |rewrite Hmax; by destruct (fold_left Math_max ys NegInf)].
Qed.

Lemma groupValues_numbers xIdx yIdx key rows :
  Forall (fun y => isNaN y = false) (groupValues xIdx yIdx key rows).
Proof.
  unfold groupValues. apply Forall_forall. intros y Hy.
  apply list_elem_of_In, in_map_iff in Hy as (row & <- & Hin).
  apply list_elem_of_In, list_elem_of_filter in Hin. by destruct Hin as [[[_ ?] _] _].
Qed.

Lemma extremumOf_attained (agg : AggregationType) (ys : list number) :
  agg = AggMin \/ agg = AggMax ->
  Forall (fun y => isNaN y = false) ys ->
  ys <> [] ->
  extremumOf agg ys ∈ ys
  /\ Forall (fun y => moreExtreme agg y (extremumOf agg ys) = false) ys.
Proof.
  intros Hagg Hys Hne.
  assert (Hmin : forall a y, isNaN a = false -> isNaN y = false ->
            Math_min a y = if ltb y a then y else a)
    by (intros [| | |?] [| | |?]; done).
  assert (Hmax : forall a y, isNaN a = false -> isNaN y = false ->
            Math_max a y = if ltb a y then y else a)
    by (intros [| | |?] [| | |?]; done).
  destruct Hagg as [->| ->]; unfold extremumOf, moreExtreme.
  - destruct (running_extremum Math_min ltb Hmin ltb_neg_trans ltb_asym
                ltb_irrefl ys PosInf eq_refl Hys) as (_ & Hin & _ & Hall).
    split; [|done]. destruct Hin as [Hin|Hin]; [|done].
    rewrite Hin in *. destruct ys as [|y ys]; [done|].
    apply Forall_cons in Hall as [Hy _]. apply Forall_cons in Hys as [Hn _].
    destruct y; try done. apply list_elem_of_here.
  - destruct (running_extremum Math_max (fun u v => ltb v u) Hmax
                (fun a b c Hb H =>
                   match ltb_neg_trans c b a Hb H with
                   | or_introl H1 => or_intror H1
                   | or_intror H2 => or_introl H2
                   end)
                (fun a b => ltb_asym b a) ltb_irrefl ys NegInf eq_refl Hys)
      as (_ & Hin & _ & Hall).
    split; [|done]. destruct Hin as [Hin|Hin]; [|done].
    rewrite Hin in *. destruct ys as [|y ys]; [done|].
    apply Forall_cons in Hall as [Hy _]. apply Forall_cons in Hys as [Hn _].
    destruct y; try done. apply list_elem_of_here.
Qed.

Lemma aggregatedPoints_extremum data agg xCol xIdx yCol yIdx :
  agg = AggMin \/ agg = AggMax ->
  aggregatedPoints data agg xCol xIdx yCol (Z.of_nat yIdx)
  = map (extremumPoint agg xCol yCol xIdx yIdx (rows data))
        (groupKeys xIdx yIdx (rows data)).
Proof.
  intros Hagg. unfold aggregatedPoints.
  replace (match agg with AggCount => true | _ => false end) with false
    by (by destruct Hagg as [->| ->]).
  rewrite groupRows_keyed, map_map. apply map_ext. intros key.
  unfold extremumPoint. by rewrite groupValue_extremum.
Qed.

(** C2, as the code has it.  With aggregation min or max and both columns
    resolved, the pairs produced before sorting and limiting are one per
    group key, in discovery order.  The group keys are the distinct non-empty
    trimmed x values that have at least one row whose y reads as a number; an
    x value all of whose rows have a non-numeric y gets no group and no
    output pair.  The value of a group is the running extremum of its y
    numbers (one of them, with none of them beyond it), replaced by 0 when it
    equals the starting sentinel (Infinity for min, -Infinity for max), and
    rounded to two decimals. *)
Theorem min_max_groups data chart sortOrder limit xc yc :
  aggregation chart = AggMin \/ aggregation chart = AggMax ->
  findColumn (columns data) (xAxis chart) = Some xc ->
  findColumn (columns data) (yAxis chart) = Some yc ->
  let agg := aggregation chart in
  let keys := groupKeys (index xc) (index yc) (rows data) in
  let values := fun key => groupValues (index xc) (index yc) key (rows data) in
  let groups :=
    map (fun key =>
           point (name xc) key (name yc)
                 (round2 (resetSentinel agg (extremumOf agg (values key)))))
        keys in
  producedPoints data chart limit = groups
  /\ processChartData data chart sortOrder limit
     = Array_slice (sortPoints sortOrder (name yc) groups) limit
  /\ NoDup keys
  /\ (forall key,
         key ∈ keys <->
         key <> ""
         /\ exists row, row ∈ rows data /\ xKeyOf (index xc) row = key
                        /\ isNaN (yValueOf (index yc) row) = false)
  /\ (forall key,
         key ∈ keys ->
         extremumOf agg (values key) ∈ values key
         /\ Forall (fun y => moreExtreme agg y (extremumOf agg (values key)) = false)
                   (values key)).
Proof.
  intros Hagg Hx Hy agg keys values groups.
  assert (Hproduced : producedPoints data chart limit = groups).
  { unfold producedPoints, yColOf, yIdxOf. rewrite Hx, Hy. simpl.
    unfold unsortedPoints.
    replace (match aggregation chart with
             | AggNone => _
             | _ => aggregatedPoints data (aggregation chart) (name xc)
                      (index xc) (name yc) (Z.of_nat (index yc))
             end)
      with (aggregatedPoints data (aggregation chart) (name xc) (index xc)
              (name yc) (Z.of_nat (index yc)))
      by (by destruct Hagg as [->| ->]).
    by rewrite aggregatedPoints_extremum. }
  split; [exact Hproduced|].
  split.
  { rewrite processChartData_stages, Hproduced.
    unfold yColOf. by rewrite Hy. }
  split; [apply firstAppearances_NoDup|].
  split; [intros key; apply groupKeys_elem_of|].
  intros key Hkey. apply extremumOf_attained.
  - done.
  - apply groupValues_numbers.
  - apply groupKeys_elem_of in Hkey as (Hne & row & Hin & Hk & Hnum).
    intros Hnil.
    assert (Hrow : row ∈ filter
              (fun row => feeds (index xc) (index yc) row
                          /\ xKeyOf (index xc) row = key) (rows data)).
    { apply list_elem_of_filter. unfold feeds. rewrite Hk. by repeat split. }
    unfold values, groupValues in Hnil.
    destruct (filter _ (rows data)); [by apply elem_of_nil in Hrow | done].
Qed.

Lemma min_max_groups_witness :
  (aggregation (chartOf "category" "amount" AggMin) = AggMin
   \/ aggregation (chartOf "category" "amount" AggMin) = AggMax)
  /\ processChartData
       (dataset [["B"; "2.5"]; ["A"; "x"]; [" B "; "1.234"]; ["C"; "Infinity"]])
       (chartOf "category" "amount" AggMin) SortNone 20
     = [point "Category" "B" "Amount" (Fin (123 # 100));
        point "Category" "C" "Amount" (Fin 0)].
Proof.
  split; [by left|].
  rewrite (proj1 (proj2 (min_max_groups
    (dataset [["B"; "2.5"]; ["A"; "x"]; [" B "; "1.234"]; ["C"; "Infinity"]])
    (chartOf "category" "amount" AggMin) SortNone 20
    {| name := "Category"; type := TString; index := 0 |}
    {| name := "Amount"; type := TNumber; index := 1 |}
    (or_introl eq_refl) eq_refl eq_refl))).
  vm_compute. reflexivity.
Defined.

(** C2 as stated fails: "A" is a non-empty trimmed x value of the rows, its
    only y cell is not numeric, and the output has no pair for it, rather
    than a pair with value 0. *)
Lemma min_group_without_numbers_is_omitted :
  xKeyOf 0 ["A"; "x"] = "A"
  /\ isNaN (yValueOf 1 ["A"; "x"]) = true
  /\ processChartData (dataset [["A"; "x"]])
                      (chartOf "Category" "Amount" AggMin) SortNone 20 = []
  /\ processChartData (dataset [["A"; "x"]])
                      (chartOf "Category" "Amount" AggMin) SortNone 20
     <> [point "Category" "A" "Amount" (Fin 0)].
Proof. repeat split; vm_compute; done. Qed.

(** ** Reading the y cell in aggregated mode *)

(** A y cell that [parseFloat] reads as NaN leaves the groups as they are:
    no count is added and no min or max is touched. *)
Lemma accumulate_skips_NaN xIdx yIdx groups row :
  isNaN (parseFloat (cellOr "0" row (Z.to_nat yIdx))) = true ->
  accumulate false xIdx yIdx groups row = groups.
Proof.
  intros H. unfold accumulate. rewrite H. simpl.
  case_bool_decide; [done|]. by destruct (0 <=? yIdx).
Qed.

(** C1.  The code reads the y cell with [parseFloat] alone, without the
    normalization of type inference.  The cell "1,234" is a number for
    [inferColumnType] and reads as 1234 once normalized, yet the sum of its
    group is 1; the cell "12abc" is not a number for type inference, yet it
    is not skipped: it adds 12 to its group. *)
Theorem sum_reads_y_without_normalization :
  inferColumnType ["1,234"] = TNumber
  /\ normalizedNumber "1,234" = Fin 1234
  /\ processChartData (dataset [["A"; "1,234"]])
                      (chartOf "Category" "Amount" AggSum) SortNone 20
     = [point "Category" "A" "Amount" (Fin 1)]
  /\ isNumberValue "12abc" = false
  /\ processChartData (dataset [["A"; "12abc"]])
                      (chartOf "Category" "Amount" AggSum) SortNone 20
     = [point "Category" "A" "Amount" (Fin 12)].
Proof. repeat split; vm_compute; reflexivity. Qed.

(** In sum, avg, min or max mode a y column that does not resolve leaves the
    groups empty: the output is the empty sequence. *)
Lemma aggregation_without_y_column data chart sortOrder limit xc :
  findColumn (columns data) (xAxis chart) = Some xc ->
  findColumn (columns data) (yAxis chart) = None ->
  aggregation chart <> AggCount ->
  aggregation chart <> AggNone ->
  processChartData data chart sortOrder limit = [].
Proof.
  intros Hx Hy Hcount Hnone.
  assert (Hgroups : forall (rs : list (list string)) groups,
    fold_left (accumulate false (index xc) (-1)) rs groups = groups).
  { intros rs. induction rs as [|row rs IH]; intros groups; simpl; [done|].
    rewrite IH. unfold accumulate. by case_bool_decide. }
  assert (Hproduced : producedPoints data chart limit = []).
  { unfold producedPoints, yColOf, yIdxOf. rewrite Hx, Hy. simpl.
    unfold unsortedPoints, aggregatedPoints, groupRows.
    destruct (aggregation chart) eqn:E; try congruence; by rewrite Hgroups. }
  rewrite processChartData_stages, Hproduced.
  unfold Array_slice. destruct sortOrder; simpl; by rewrite take_nil.
Qed.

(** * Further properties of the pipeline *)

(** ** Count mode *)

Lemma countKeys_snoc xIdx rows row :
  countKeys xIdx (rows ++ [row])
  = if bool_decide (xKeyOf xIdx row = "") then countKeys xIdx rows
    else if bool_decide (xKeyOf xIdx row ∈ countKeys xIdx rows)
         then countKeys xIdx rows
         else countKeys xIdx rows ++ [xKeyOf xIdx row].
Proof.
  unfold countKeys. rewrite map_app, filter_app. cbn [map].
  rewrite filter_cons, filter_nil.
  case_bool_decide as Hx.
  - rewrite decide_False by tauto. by rewrite app_nil_r.
  - rewrite decide_True by done. by rewrite firstAppearances_snoc.
Qed.

Lemma countKeys_elem_of xIdx rows key :
  key ∈ countKeys xIdx rows
  <-> key <> "" /\ exists row, row ∈ rows /\ xKeyOf xIdx row = key.
Proof.
  unfold countKeys.
  rewrite firstAppearances_elem_of, list_elem_of_filter, list_elem_of_In, in_map_iff.
  split.
  - intros (Hne & row & <- & Hin). split; [done|]. exists row.
    by rewrite list_elem_of_In.
  - intros (Hne & row & Hin & <-). split; [done|]. exists row.
    by rewrite <- list_elem_of_In.
Qed.

Lemma rowsWithKey_snoc xIdx key rows row :
  rowsWithKey xIdx key (rows ++ [row])
  = rowsWithKey xIdx key rows
    ++ (if bool_decide (xKeyOf xIdx row = key) then [row] else []).
Proof.
  unfold rowsWithKey. rewrite filter_app, filter_cons, filter_nil.
  by case_decide; [rewrite bool_decide_true | rewrite bool_decide_false].
Qed.

Lemma rowsWithKey_nil xIdx key rows :
  key <> "" -> key ∉ countKeys xIdx rows -> rowsWithKey xIdx key rows = [].
Proof.
  intros Hne Hkey. unfold rowsWithKey.
  destruct (filter _ rows) as [|row l] eqn:Hf; [done|].
  exfalso. apply Hkey, countKeys_elem_of. split; [done|].
  assert (Hin : row ∈ filter (fun row => xKeyOf xIdx row = key) rows)
    by (rewrite Hf; apply list_elem_of_here).
  apply list_elem_of_filter in Hin as [? ?]. by exists row.
Qed.

(** The groups of count mode: one per key, counting the rows of the key. *)
Lemma groupRows_counted xIdx yIdx (rows : list (list string)) :
  groupRows true xIdx yIdx rows
  = map (fun key =>
           (key, Group.mk (Fin 0) (length (rowsWithKey xIdx key rows))
                          (Fin 0) (Fin 0)))
        (countKeys xIdx rows).
Proof.
  unfold groupRows.
  induction rows as [|row rows' IH] using rev_ind; [done|].
  rewrite fold_left_app. simpl. rewrite IH. clear IH.
  unfold accumulate.
  change (trim (cellOr "" row xIdx)) with (xKeyOf xIdx row).
  rewrite countKeys_snoc.
  case_bool_decide as Hx.
  { apply map_ext_in. intros key Hin%list_elem_of_In.
    apply countKeys_elem_of in Hin as [Hne _].
    rewrite rowsWithKey_snoc, bool_decide_false by congruence.
    by rewrite app_nil_r. }
  rewrite mapGet_keyed.
  apply mapSet_keyed; [apply firstAppearances_NoDup| |].
  - intros key Hne. rewrite rowsWithKey_snoc, bool_decide_false by congruence.
    by rewrite app_nil_r.
  - rewrite rowsWithKey_snoc, bool_decide_true by done.
    rewrite length_app. simpl.
    case_bool_decide as Hin; simpl; [done|].
    by rewrite rowsWithKey_nil.
Qed.

(** X1. In count mode, with the x column resolved, the pairs produced before
    sorting and limiting are one per distinct non-empty trimmed x value, in
    the order in which the values first appear in the rows; the value of a
    pair is the number of rows with that trimmed x (at least 1), rounded to
    two decimals, stored under the y column's name, or under "count" when the
    y column does not resolve.  No y cell is read. *)
Theorem count_mode_groups data chart sortOrder limit xc :
  aggregation chart = AggCount ->
  findColumn (columns data) (xAxis chart) = Some xc ->
  let keys := countKeys (index xc) (rows data) in
  let groups :=
    map (fun key =>
           point (name xc) key (yColOf data chart)
                 (round2 (ofNat (length (rowsWithKey (index xc) key (rows data))))))
        keys in
  producedPoints data chart limit = groups
  /\ processChartData data chart sortOrder limit
     = Array_slice (sortPoints sortOrder (yColOf data chart) groups) limit
  /\ NoDup keys
  /\ (forall key,
         key ∈ keys <->
         key <> "" /\ exists row, row ∈ rows data /\ xKeyOf (index xc) row = key)
  /\ (forall key, key ∈ keys ->
         (1 <= length (rowsWithKey (index xc) key (rows data)))%nat).
Proof.
  intros Hagg Hx keys groups.
  assert (Hproduced : producedPoints data chart limit = groups).
  { unfold producedPoints. rewrite Hx. unfold unsortedPoints. rewrite Hagg.
    unfold aggregatedPoints. rewrite groupRows_counted, map_map. done. }
  split; [exact Hproduced|].
  split; [by rewrite processChartData_stages, Hproduced|].
  split; [apply firstAppearances_NoDup|].
  split; [intros key; apply countKeys_elem_of|].
  intros key Hkey. apply countKeys_elem_of in Hkey as (_ & row & Hin & Hk).
  assert (Hrow : row ∈ rowsWithKey (index xc) key (rows data))
    by (by apply list_elem_of_filter).
  destruct (rowsWithKey _ _ _); [by apply elem_of_nil in Hrow | simpl; lia].
Qed.

Lemma count_mode_groups_witness :
  aggregation (chartOf "category" "" AggCount) = AggCount
  /\ processChartData
       (dataset [["B"; "1"]; ["A"; "x"]; [" B "]; [" "; "7"]; ["A"; ""]; ["B"; "2"]])
       (chartOf "category" "" AggCount) SortDesc 20
     = [point "Category" "B" "count" (Fin 3);
        point "Category" "A" "count" (Fin 2)].
Proof.
  split; [reflexivity|].
  rewrite (proj1 (proj2 (count_mode_groups
    (dataset [["B"; "1"]; ["A"; "x"]; [" B "]; [" "; "7"]; ["A"; ""]; ["B"; "2"]])
    (chartOf "category" "" AggCount) SortDesc 20
    {| name := "Category"; type := TString; index := 0 |} eq_refl eq_refl))).
  vm_compute. reflexivity.
Defined.

(** ** Sum and average *)

Lemma statsOf_sum_count (ys : list number) :
  Group.sum (statsOf ys) = fold_left add ys (Fin 0)
  /\ Group.count (statsOf ys) = length ys.
Proof.
  unfold statsOf.
  assert (H : forall st,
    Group.sum (fold_left statsStep ys st) = fold_left add ys (Group.sum st)
    /\ Group.count (fold_left statsStep ys st) = (Group.count st + length ys)%nat).
  { induction ys as [|y ys IH]; intros st; simpl; [split; [done|lia]|].
    destruct (IH (statsStep st y)) as [-> ->]. simpl. split; [done|lia]. }
  destruct (H (Group.mk (Fin 0) 0 PosInf NegInf)) as [-> ->]. done.
Qed.

Lemma groupValues_not_nil xIdx yIdx rows key :
  key ∈ groupKeys xIdx yIdx rows -> groupValues xIdx yIdx key rows <> [].
Proof.
  intros Hkey Hnil.
  apply groupKeys_elem_of in Hkey as (Hne & row & Hin & Hk & Hnum).
  assert (Hrow : row ∈ filter
            (fun row => feeds xIdx yIdx row /\ xKeyOf xIdx row = key) rows).
  { apply list_elem_of_filter. unfold feeds. rewrite Hk. by repeat split. }
  unfold groupValues in Hnil.
  destruct (filter _ rows); [by apply elem_of_nil in Hrow | done].
Qed.

(** X2. With aggregation sum or avg and both columns resolved, the pairs
    produced before sorting and limiting are one per group key, in discovery
    order (the keys are the distinct non-empty trimmed x values that have a
    row with a numeric y).  The value of a group is, for sum, the sum of its
    y numbers in row order and, for avg, that sum divided by how many they
    are, rounded to two decimals.  Every group has at least one y number, so
    the average never takes the branch that answers 0 for an empty group. *)
Theorem sum_avg_groups data chart sortOrder limit xc yc :
  aggregation chart = AggSum \/ aggregation chart = AggAvg ->
  findColumn (columns data) (xAxis chart) = Some xc ->
  findColumn (columns data) (yAxis chart) = Some yc ->
  let keys := groupKeys (index xc) (index yc) (rows data) in
  let values := fun key => groupValues (index xc) (index yc) key (rows data) in
  let total := fun key => fold_left add (values key) (Fin 0) in
  let groups :=
    map (fun key =>
           point (name xc) key (name yc)
                 (round2 (match aggregation chart with
                          | AggAvg => div (total key) (ofNat (length (values key)))
                          | _ => total key
                          end)))
        keys in
  producedPoints data chart limit = groups
  /\ processChartData data chart sortOrder limit
     = Array_slice (sortPoints sortOrder (name yc) groups) limit
  /\ (forall key, key ∈ keys -> (1 <= length (values key))%nat).
Proof.
  intros Hagg Hx Hy keys values total groups.
  assert (Hlen : forall key, key ∈ keys -> (1 <= length (values key))%nat).
  { intros key Hkey. apply groupValues_not_nil in Hkey.
    unfold values. destruct (groupValues _ _ _ _); [done | simpl; lia]. }
  assert (Hproduced : producedPoints data chart limit = groups).
  { unfold producedPoints, yColOf, yIdxOf. rewrite Hx, Hy. simpl.
    unfold unsortedPoints, groups.
    destruct Hagg as [Hagg|Hagg]; rewrite Hagg; unfold aggregatedPoints;
      rewrite groupRows_keyed, map_map; apply map_ext_in;
      intros key Hkey%list_elem_of_In; unfold groupValue;
      destruct (statsOf_sum_count
                  (groupValues (index xc) (index yc) key (rows data)))
        as [Hs Hc]; rewrite ?Hs, ?Hc; [done|].
    specialize (Hlen key Hkey). unfold values in Hlen.
    destruct (Nat.ltb_spec 0 (length (groupValues (index xc) (index yc) key
                                                  (rows data)))); [done|lia]. }
  split; [exact Hproduced|].
  split; [|exact Hlen].
  rewrite processChartData_stages, Hproduced. unfold yColOf. by rewrite Hy.
Qed.

Lemma sum_avg_groups_witness :
  (aggregation (chartOf "category" "amount" AggAvg) = AggSum
   \/ aggregation (chartOf "category" "amount" AggAvg) = AggAvg)
  /\ processChartData
       (dataset [["A"; "1"]; ["B"; "x"]; ["A"; "2.5"]; ["C"; "4"]; ["A"; ""]])
       (chartOf "category" "amount" AggAvg) SortNone 20
     = [point "Category" "A" "Amount" (Fin (7 # 4));
        point "Category" "C" "Amount" (Fin 4)].
Proof.
  split; [by right|].
  rewrite (proj1 (proj2 (sum_avg_groups
    (dataset [["A"; "1"]; ["B"; "x"]; ["A"; "2.5"]; ["C"; "4"]; ["A"; ""]])
    (chartOf "category" "amount" AggAvg) SortNone 20
    {| name := "Category"; type := TString; index := 0 |}
    {| name := "Amount"; type := TNumber; index := 1 |}
    (or_intror eq_refl) eq_refl eq_refl))).
  vm_compute. reflexivity.
Defined.

(** ** Size and content of the output *)

Lemma mapSet_length key v groups :
  (length (mapSet key v groups) <= S (length groups))%nat.
Proof.
  induction groups as [|[k w] groups IH]; simpl; [lia|].
  case_bool_decide; simpl; lia.
Qed.

Lemma accumulate_length isCountMode xIdx yIdx groups row :
  (length (accumulate isCountMode xIdx yIdx groups row) <= S (length groups))%nat.
Proof.
  unfold accumulate.
  case_bool_decide; [lia|].
  destruct isCountMode; [apply mapSet_length|].
  destruct (0 <=? yIdx); [|lia].
  destruct (negb _); [apply mapSet_length | lia].
Qed.

Lemma groupRows_length isCountMode xIdx yIdx (rs : list (list string)) :
  (length (groupRows isCountMode xIdx yIdx rs) <= length rs)%nat.
Proof.
  unfold groupRows.
  assert (H : forall groups,
    (length (fold_left (accumulate isCountMode xIdx yIdx) rs groups)
     <= length groups + length rs)%nat).
  { induction rs as [|row rs IH]; intros groups; simpl; [lia|].
    specialize (IH (accumulate isCountMode xIdx yIdx groups row)).
    pose proof (accumulate_length isCountMode xIdx yIdx groups row). lia. }
  apply (H []).
Qed.

Lemma Array_slice_length {A} (l : list A) (e : Z) :
  (length (Array_slice l e) <= length l)%nat.
Proof. unfold Array_slice. rewrite length_take. lia. Qed.

Lemma Array_slice_elem_of {A} (l : list A) (e : Z) (x : A) :
  x ∈ Array_slice l e -> x ∈ l.
Proof.
  unfold Array_slice. intros H. apply list_elem_of_lookup in H as [i Hi].
  apply lookup_take_Some in Hi as [Hi _]. by apply list_elem_of_lookup_2 in Hi.
Qed.

Lemma sortPoints_Permutation sortOrder yCol l : sortPoints sortOrder yCol l ≡ₚ l.
Proof. destruct sortOrder; simpl; [done| |]; apply Array_sort_Permutation. Qed.

Lemma producedPoints_length data chart limit :
  (length (producedPoints data chart limit) <= length (rows data))%nat.
Proof.
  unfold producedPoints.
  destruct (findColumn (columns data) (xAxis chart)) as [xc|]; simpl; [|lia].
  unfold unsortedPoints, aggregatedPoints, rawPoints.
  destruct (aggregation chart);
    rewrite ?length_map; try apply groupRows_length.
  destruct (0 <=? yIdxOf data chart); simpl; [|lia].
  etransitivity; [apply length_filter|].
  rewrite length_map. apply Array_slice_length.
Qed.

Lemma processChartData_elem_of data chart sortOrder limit p :
  p ∈ processChartData data chart sortOrder limit ->
  p ∈ producedPoints data chart limit.
Proof.
  rewrite processChartData_stages. intros H%Array_slice_elem_of.
  by rewrite sortPoints_Permutation in H.
Qed.

(** X3. The output never has more entries than the dataset has rows,
    whatever the chart, the sort order and the limit; with a limit that is a
    count it has at most [limit] entries, with or without sorting. *)
Theorem output_size_bounds data chart sortOrder limit :
  (length (processChartData data chart sortOrder limit) <= length (rows data))%nat
  /\ (0 <= limit ->
      (length (processChartData data chart sortOrder limit) <= Z.to_nat limit)%nat).
Proof.
  rewrite processChartData_stages. split.
  - etransitivity; [apply Array_slice_length|].
    rewrite sortPoints_Permutation. apply producedPoints_length.
  - intros H. rewrite Array_slice_take, length_take by done. lia.
Qed.

Lemma output_size_bounds_witness :
  0 <= 2
  /\ (length (processChartData
                (dataset [["A"; "1"]; ["B"; "2"]; ["C"; "3"]; ["D"; "4"]])
                (chartOf "category" "amount" AggSum) SortNone 2) <= 2)%nat.
Proof.
  split; [lia|].
  exact (proj2 (output_size_bounds
                  (dataset [["A"; "1"]; ["B"; "2"]; ["C"; "3"]; ["D"; "4"]])
                  (chartOf "category" "amount" AggSum) SortNone 2)
               ltac:(lia)).
Defined.

Lemma fin_not_NaN (q : Q) : isNaN (fin q) = false.
Proof.
  destruct (fin_cases q) as [[-> _]|[[-> _]|(r & -> & _)]]; done.
Qed.

Lemma round2_not_NaN (v : number) : isNaN v = false -> isNaN (round2 v) = false.
Proof.
  unfold round2. destruct v as [| | |q]; try done. intros _.
  unfold mul.
  destruct (fin_cases (q * 100)) as [[-> _]|[[-> _]|(r & -> & _)]]; try done.
  unfold Math_round, div.
  change (Qeq_bool 100 0) with false. cbv iota. apply fin_not_NaN.
Qed.

(** X4. In raw mode and with aggregation count, min or max, no pair of the
    output holds NaN under the y key. *)
Theorem output_y_is_not_NaN data chart sortOrder limit :
  aggregation chart = AggNone \/ aggregation chart = AggCount
  \/ aggregation chart = AggMin \/ aggregation chart = AggMax ->
  Forall (fun p => isNaN (numberProp p (yColOf data chart)) = false)
         (processChartData data chart sortOrder limit).
Proof.
  intros Hagg. apply Forall_forall. intros p Hp.
  destruct (findColumn (columns data) (xAxis chart)) as [xc|] eqn:Hx.
  2:{ unfold processChartData in Hp. rewrite Hx in Hp. by apply elem_of_nil in Hp. }
  destruct Hagg as [Hagg|[Hagg|Hagg]].
  - apply processChartData_elem_of in Hp.
    unfold producedPoints in Hp. rewrite Hx in Hp.
    unfold unsortedPoints in Hp. rewrite Hagg in Hp.
    destruct (0 <=? yIdxOf data chart); [|by apply elem_of_nil in Hp].
    unfold rawPoints in Hp. by apply list_elem_of_filter in Hp as [? _].
  - apply processChartData_elem_of in Hp.
    unfold producedPoints in Hp. rewrite Hx in Hp.
    unfold unsortedPoints in Hp. rewrite Hagg in Hp.
    unfold aggregatedPoints in Hp. rewrite groupRows_counted, map_map in Hp.
    apply list_elem_of_In, in_map_iff in Hp as (key & <- & _).
    rewrite numberProp_point. apply round2_not_NaN, fin_not_NaN.
  - destruct (findColumn (columns data) (yAxis chart)) as [yc|] eqn:Hy.
    2:{ rewrite (aggregation_without_y_column data chart sortOrder limit xc)
          in Hp; try done.
        - by apply elem_of_nil in Hp.
        - by destruct Hagg as [-> | ->].
        - by destruct Hagg as [-> | ->]. }
    apply processChartData_elem_of in Hp.
    unfold producedPoints, yColOf, yIdxOf in Hp. rewrite Hx, Hy in Hp.
    simpl in Hp. unfold unsortedPoints in Hp.
    assert (Hp' : p ∈ aggregatedPoints data (aggregation chart) (name xc)
                       (index xc) (name yc) (Z.of_nat (index yc)))
      by (by destruct Hagg as [E|E]; rewrite E in *).
    rewrite aggregatedPoints_extremum in Hp' by done.
    apply list_elem_of_In, in_map_iff in Hp' as (key & <- & Hkey).
    unfold yColOf. rewrite Hy. simpl. unfold extremumPoint.
    rewrite numberProp_point. apply round2_not_NaN.
    apply list_elem_of_In, groupValues_not_nil in Hkey.
    destruct (extremumOf_attained (aggregation chart)
                (groupValues (index xc) (index yc) key (rows data)) Hagg
                (groupValues_numbers _ _ _ _) Hkey) as [Hin _].
    pose proof (groupValues_numbers (index xc) (index yc) key (rows data)) as Hnum.
    rewrite Forall_forall in Hnum. specialize (Hnum _ Hin).
    destruct (extremumOf _ _); try done;
      by destruct Hagg as [-> | ->].
Qed.

Lemma output_y_is_not_NaN_witness :
  (aggregation (chartOf "category" "amount" AggNone) = AggNone
   \/ aggregation (chartOf "category" "amount" AggNone) = AggCount
   \/ aggregation (chartOf "category" "amount" AggNone) = AggMin
   \/ aggregation (chartOf "category" "amount" AggNone) = AggMax)
  /\ Forall (fun p => isNaN (numberProp p "Amount") = false)
            (processChartData (dataset [["A"; "x"]; ["B"; "2"]; ["C"; "NaN"]])
                              (chartOf "category" "amount" AggNone) SortAsc 20).
Proof.
  split; [by left|].
  exact (output_y_is_not_NaN
           (dataset [["A"; "x"]; ["B"; "2"]; ["C"; "NaN"]])
           (chartOf "category" "amount" AggNone) SortAsc 20 (or_introl eq_refl)).
Defined.



(** ** Resolution of the axis names *)

Lemma lowerChar_idempotent (c : ascii) : lowerChar (lowerChar c) = lowerChar c.
Proof. destruct c as [[] [] [] [] [] [] [] []]; reflexivity. Qed.

Lemma toLowerCase_idempotent (s : string) :
  toLowerCase (toLowerCase s) = toLowerCase s.
Proof.
  induction s as [|c s IH]; simpl; [done|].
  by rewrite lowerChar_idempotent, IH.
Qed.

(** X6. The letter case of the chart's axis names is irrelevant: a chart
    whose [xAxis] and [yAxis] are put in lower case gives the same output on
    every dataset. *)
Theorem axis_names_match_without_case data chart sortOrder limit :
  processChartData data (lowerCased chart) sortOrder limit
  = processChartData data chart sortOrder limit.
Proof.
  unfold processChartData, lowerCased, findColumn. simpl.
  by rewrite !toLowerCase_idempotent.
Qed.

(** ** The limit *)

(** X7. Raw mode never looks beyond the first [2 × limit] rows: cutting the
    dataset to those rows leaves the output unchanged, also when the output is
    sorted. *)
Theorem raw_mode_reads_a_prefix data chart sortOrder limit :
  aggregation chart = AggNone ->
  0 <= limit ->
  processChartData (withRows data (take (2 * Z.to_nat limit) (rows data)))
                   chart sortOrder limit
  = processChartData data chart sortOrder limit.
Proof.
  intros Hagg Hlimit. unfold processChartData, withRows. simpl.
  destruct (findColumn (columns data) (xAxis chart)) as [xc|]; [|done].
  unfold unsortedPoints. rewrite Hagg.
  destruct (0 <=? _); [|done].
  unfold rawPoints. simpl.
  rewrite !raw_slice, take_take by done.
  by rewrite Nat.min_id.
Qed.

Lemma raw_mode_reads_a_prefix_witness :
  aggregation (chartOf "category" "amount" AggNone) = AggNone
  /\ 0 <= 1
  /\ processChartData
       (dataset [["A"; "5"]; ["B"; "7"]; ["C"; "1"]; ["D"; "0"]])
       (chartOf "category" "amount" AggNone) SortAsc 1
     = [point "Category" "A" "Amount" (Fin 5)].
Proof.
  split; [reflexivity|]. split; [lia|].
  rewrite <- (raw_mode_reads_a_prefix
                (dataset [["A"; "5"]; ["B"; "7"]; ["C"; "1"]; ["D"; "0"]])
                (chartOf "category" "amount" AggNone) SortAsc 1
                eq_refl ltac:(lia)).
  vm_compute. reflexivity.
Defined.

Lemma producedPoints_aggregated data chart limit limit' :
  aggregation chart <> AggNone ->
  producedPoints data chart limit = producedPoints data chart limit'.
Proof.
  intros Hagg. unfold producedPoints, unsortedPoints.
  destruct (findColumn (columns data) (xAxis chart)); [|done].
  by destruct (aggregation chart).
Qed.

(** X8. In aggregated mode a smaller limit gives the head of what a larger
    limit gives, for every sort order: the output for limit [m] is the first
    [m] entries of the output for any limit [n >= m]. *)
Theorem aggregated_limit_is_a_prefix data chart sortOrder m n :
  aggregation chart <> AggNone ->
  0 <= m <= n ->
  processChartData data chart sortOrder m
  = take (Z.to_nat m) (processChartData data chart sortOrder n).
Proof.
  intros Hagg Hmn. rewrite !processChartData_stages.
  rewrite (producedPoints_aggregated data chart m n Hagg).
  rewrite !Array_slice_take, take_take by lia.
  f_equal. lia.
Qed.

Lemma aggregated_limit_is_a_prefix_witness :
  aggregation (chartOf "category" "amount" AggSum) <> AggNone
  /\ 0 <= 1 <= 20
  /\ processChartData (dataset [["A"; "10"]; ["B"; "5"]; ["A"; "3"]])
                      (chartOf "category" "amount" AggSum) SortAsc 1
     = [point "Category" "B" "Amount" (Fin 5)].
Proof.
  split; [discriminate|]. split; [lia|].
  rewrite (aggregated_limit_is_a_prefix
             (dataset [["A"; "10"]; ["B"; "5"]; ["A"; "3"]])
             (chartOf "category" "amount" AggSum) SortAsc 1 20
             ltac:(discriminate) ltac:(lia)).
  vm_compute. reflexivity.
Defined.

(** ** The trend line *)

Lemma fin_zero (q : Q) : (q == 0)%Q -> fin q = Fin 0.
Proof.
  intros H. unfold fin.
  assert (H1 : Qle_bool (inject_Z overflowBound) q = false).
  { apply Qle_bool_false. rewrite H. done. }
  assert (H2 : Qle_bool q (inject_Z (- overflowBound)) = false).
  { apply Qle_bool_false. rewrite H. done. }
  rewrite H1, H2. f_equal. by rewrite (Qred_complete _ _ H).
Qed.

Lemma div_zero_ofNat (n : nat) : (0 < n)%nat -> div (Fin 0) (ofNat n) = Fin 0.
Proof.
  intros Hn. unfold ofNat.
  destruct (fin_cases (inject_Z (Z.of_nat n))) as [[-> _]|[[-> _]|(r & -> & Hr)]];
    try done.
  unfold div.
  assert (Hpos : (0 < r)%Q).
  { rewrite Hr. change 0%Q with (inject_Z 0). rewrite <- Zlt_Qlt. lia. }
  destruct (Qeq_bool r 0) eqn:E.
  - apply Qeq_bool_iff in E. rewrite E in Hpos. by apply Qlt_irrefl in Hpos.
  - apply fin_zero. unfold Qdiv. apply Qmult_0_l.
Qed.

(** X9. When the chart's y axis resolves to no column and is not the literal
    name "count", the average drawn as the trend line is 0 whatever the data:
    the pairs hold their numbers under the key "count", while the average is
    read under the chart's own y axis name.  This is the case of a count
    chart without a y column. *)
Theorem trend_average_without_y_column data chart sortOrder limit :
  findColumn (columns data) (yAxis chart) = None ->
  yAxis chart <> "count" ->
  columnDisplayName (columns data) (yAxis chart) = yAxis chart
  /\ average (processChartData data chart sortOrder limit)
             (columnDisplayName (columns data) (yAxis chart)) = Fin 0.
Proof.
  intros Hy Hcount.
  assert (Hnone : Forall (fun c => toLowerCase (name c) <> toLowerCase (yAxis chart))
                         (columns data)).
  { unfold findColumn in Hy.
    destruct (list_find _ (columns data)) eqn:E; [done|].
    by apply list_find_None in E. }
  assert (Hname : columnDisplayName (columns data) (yAxis chart) = yAxis chart).
  { unfold columnDisplayName.
    replace (list_find _ (columns data)) with (@None (nat * CSVColumn)); [done|].
    symmetry. apply list_find_None.
    eapply Forall_impl; [exact Hnone|]. intros c Hc [E|E]; apply Hc; [|done].
    by rewrite E. }
  split; [exact Hname|]. rewrite Hname.
  unfold average.
  destruct (Nat.eqb_spec (length (processChartData data chart sortOrder limit)) 0)
    as [|Hlen]; [done|].
  assert (Hzero : forall (l : list ChartDataPoint),
    Forall (fun p => prop p (yAxis chart) = None) l ->
    fold_left (fun acc item =>
                 add acc (match prop item (yAxis chart) with
                          | Some (VNumber val) => val
                          | _ => Fin 0
                          end)) l (Fin 0) = Fin 0).
  { induction 1 as [|p l Hp Hl IH]; simpl; [done|]. by rewrite Hp. }
  rewrite Hzero; [apply div_zero_ofNat; lia|].
  destruct (findColumn (columns data) (xAxis chart)) as [xc|] eqn:Hx.
  2:{ unfold processChartData. by rewrite Hx. }
  assert (Hxc : name xc <> yAxis chart).
  { unfold findColumn in Hx.
    destruct (list_find _ (columns data)) as [[i c]|] eqn:E; [|done].
    simpl in Hx. injection Hx as ->.
    apply list_find_Some in E as (Hi & _ & _).
    apply list_elem_of_lookup_2 in Hi.
    rewrite Forall_forall in Hnone. specialize (Hnone _ Hi).
    intros Heq. by rewrite Heq in Hnone. }
  apply Forall_forall. intros p Hp.
  apply processChartData_elem_of in Hp.
  assert (Hpoint : exists label v, p = point (name xc) label "count" v).
  { unfold producedPoints, yColOf, yIdxOf in Hp. rewrite Hx, Hy in Hp.
    simpl in Hp.
    unfold unsortedPoints, aggregatedPoints in Hp.
    destruct (aggregation chart);
      try (apply list_elem_of_In, in_map_iff in Hp as ([key stats] & <- & _);
           by eexists _, _).
    by apply elem_of_nil in Hp. }
  destruct Hpoint as (label & v & ->).
  unfold point. case_bool_decide as E; simpl.
  - rewrite bool_decide_false; [done|]. by rewrite E.
  - by rewrite !bool_decide_false.
Qed.

Lemma trend_average_without_y_column_witness :
  findColumn (columns (dataset [["A"; "1"]; ["B"; "2"]; ["A"; "3"]])) "" = None
  /\ "" <> "count"
  /\ processChartData (dataset [["A"; "1"]; ["B"; "2"]; ["A"; "3"]])
                      (chartOf "category" "" AggCount) SortNone 20
     = [point "Category" "A" "count" (Fin 2);
        point "Category" "B" "count" (Fin 1)]
  /\ average (processChartData (dataset [["A"; "1"]; ["B"; "2"]; ["A"; "3"]])
                               (chartOf "category" "" AggCount) SortNone 20)
             (columnDisplayName
                (columns (dataset [["A"; "1"]; ["B"; "2"]; ["A"; "3"]])) "")
     = Fin 0.
Proof.
  split; [reflexivity|]. split; [discriminate|]. split; [vm_compute; reflexivity|].
  exact (proj2 (trend_average_without_y_column
                  (dataset [["A"; "1"]; ["B"; "2"]; ["A"; "3"]])
                  (chartOf "category" "" AggCount) SortNone 20
                  eq_refl ltac:(discriminate))).
Defined.

(** * Further properties of the dataset builder *)

(** ** The delimiter *)

(** X10. [detectDelimiter] answers one of its four candidates (comma,
    semicolon, tab, pipe).  No candidate occurs in the sample more often than
    the answer.  When the answer occurs at all, every candidate that comes
    after it in the list occurs strictly less often (a tie goes to the later
    candidate); when no candidate occurs, the answer is the comma. *)
Theorem detectDelimiter_most_frequent (sample : string) :
  exists (i : nat) (d : ascii),
    delimiterCandidates !! i = Some d
    /\ detectDelimiter sample = String d EmptyString
    /\ (forall c, c ∈ delimiterCandidates ->
                  (countChar c sample <= countChar d sample)%nat)
    /\ (forall j c, delimiterCandidates !! j = Some c -> (i < j)%nat ->
                    (0 < countChar d sample)%nat ->
                    (countChar c sample < countChar d sample)%nat)
    /\ ((forall c, c ∈ delimiterCandidates -> countChar c sample = 0%nat) ->
        i = 0%nat).
Proof.
  unfold detectDelimiter, delimiterCandidates. cbn [map fold_left fst snd].
  set (a := countChar "," sample). set (b := countChar ";" sample).
  set (c := countChar TAB sample). set (d := countChar "|" sample).
  assert (Hall : forall (P : ascii -> Prop),
    P ","%char -> P ";"%char -> P TAB -> P "|"%char ->
    forall x, x ∈ ["," ; ";" ; TAB ; "|"]%char -> P x).
  { intros P H1 H2 H3 H4 x Hx.
    repeat (apply elem_of_cons in Hx as [->|Hx]; [done|]).
    by apply elem_of_nil in Hx. }
  assert (Hzero : (forall x, x ∈ ["," ; ";" ; TAB ; "|"]%char ->
                             countChar x sample = 0%nat) ->
                  a = 0%nat /\ b = 0%nat /\ c = 0%nat /\ d = 0%nat).
  { intros H. repeat split; apply H; rewrite !elem_of_cons; tauto. }
  destruct (Nat.ltb_spec b a) as [Hba|Hba]; cbn [fst snd];
    [destruct (Nat.ltb_spec c a) as [Hc|Hc] | destruct (Nat.ltb_spec c b) as [Hc|Hc]];
    cbn [fst snd];
    [destruct (Nat.ltb_spec d a) as [Hd|Hd] | destruct (Nat.ltb_spec d c) as [Hd|Hd]
    |destruct (Nat.ltb_spec d b) as [Hd|Hd] | destruct (Nat.ltb_spec d c) as [Hd|Hd]];
    cbn [fst snd];
    match goal with
    | |- context [(0 <? ?n)%nat] => destruct (Nat.ltb_spec 0 n) as [Hpos|Hpos]
    end.
  all: try (exists 0%nat, ","%char; split; [reflexivity|]; split; [reflexivity|];
            split; [apply Hall; fold a b c d; lia|];
            split; [intros [|[|[|[|j]]]] x Hj Hij Hp; simplify_eq/=;
                    fold a b c d; lia | done]).
  all: try (exists 1%nat, ";"%char; split; [reflexivity|]; split; [reflexivity|];
            split; [apply Hall; fold a b c d; lia|];
            split; [intros [|[|[|[|j]]]] x Hj Hij Hp; simplify_eq/=;
                    fold a b c d; lia
                   | intros H; destruct (Hzero H) as (?&?&?&?); fold b in Hpos; lia]).
  all: try (exists 2%nat, TAB; split; [reflexivity|]; split; [reflexivity|];
            split; [apply Hall; fold a b c d; lia|];
            split; [intros [|[|[|[|j]]]] x Hj Hij Hp; simplify_eq/=;
                    fold a b c d; lia
                   | intros H; destruct (Hzero H) as (?&?&?&?); fold c in Hpos; lia]).
  all: try (exists 3%nat, "|"%char; split; [reflexivity|]; split; [reflexivity|];
            split; [apply Hall; fold a b c d; lia|];
            split; [intros [|[|[|[|j]]]] x Hj Hij Hp; simplify_eq/=;
                    fold a b c d; lia
                   | intros H; destruct (Hzero H) as (?&?&?&?); fold d in Hpos; lia]).
Qed.

Lemma detectDelimiter_most_frequent_witness :
  detectDelimiter "a,b;c;d|e|f" = "|"
  /\ exists (i : nat) (d : ascii),
       delimiterCandidates !! i = Some d
       /\ detectDelimiter "a,b;c;d|e|f" = String d EmptyString
       /\ (forall c, c ∈ delimiterCandidates ->
                     (countChar c "a,b;c;d|e|f" <= countChar d "a,b;c;d|e|f")%nat).
Proof.
  split; [reflexivity|].
  destruct (detectDelimiter_most_frequent "a,b;c;d|e|f")
    as (i & d & H1 & H2 & H3 & _).
  by exists i, d.
Defined.

(** ** Type inference *)

(** X11. The inferred type depends only on the non-empty values among the
    first 100 values of the column: values after the first 100 and empty
    values among the first 100 can be removed without changing the type. *)
Theorem inferColumnType_reads_the_sample_only (values : list string) :
  inferColumnType values
  = inferColumnType (filter (fun v => trim v <> "") (take 100 values)).
Proof.
  unfold inferColumnType. rewrite !sampleOf_take.
  set (P := fun v => trim v <> "").
  assert (H : filter P (take 100 (filter P (take 100 values)))
              = filter P (take 100 values)).
  { rewrite take_ge.
    - induction (take 100 values) as [|v l IH]; [done|].
      rewrite filter_cons. destruct (decide (P v)) as [Hv|Hv]; [|done].
      rewrite filter_cons, decide_True by done. by rewrite IH.
    - etransitivity; [apply length_filter|]. rewrite length_take. lia. }
  by rewrite H.
Qed.

(** X12. The inferred type is sound for the sample (the non-empty values
    among the first 100).  When the type is boolean, the sample is not empty
    and every sampled value is a recognized boolean word; when it is number,
    every sampled value normalizes to a finite number and some sampled value
    is not a boolean word; when it is date, every sampled value matches a
    date pattern and some sampled value is not a number. *)
Theorem inferColumnType_sound (values : list string) :
  let sample := filter (fun v => trim v <> "") (take 100 values) in
  (inferColumnType values = TBoolean ->
   sample <> [] /\ Forall (fun v => isBooleanValue v = true) sample)
  /\ (inferColumnType values = TNumber ->
      Forall (fun v => isNumberValue v = true) sample
      /\ Exists (fun v => isBooleanValue v = false) sample)
  /\ (inferColumnType values = TDate ->
      Forall (fun v => isDateValue v = true) sample
      /\ Exists (fun v => isNumberValue v = false) sample
      /\ Exists (fun v => isBooleanValue v = false) sample).
Proof.
  intros sample. unfold inferColumnType. rewrite sampleOf_take. fold sample.
  destruct sample as [|v sample'] eqn:Hs; [by repeat split|].
  rewrite <- Hs. replace (length sample =? 0)%nat with false by (by rewrite Hs).
  destruct (forallb isBooleanValue sample) eqn:Hb.
  { repeat split; try done. by rewrite Hs. by apply forallb_Forall. }
  destruct (forallb isNumberValue sample) eqn:Hn.
  { repeat split; try done. by apply forallb_Forall. by apply forallb_Exists. }
  destruct (forallb isDateValue sample) eqn:Hd.
  { repeat split; try done. by apply forallb_Forall.
    by apply forallb_Exists. by apply forallb_Exists. }
  by repeat split.
Qed.

Lemma inferColumnType_sound_witness :
  inferColumnType ["2024-01-31"; ""; " 01/02/2024 "] = TDate
  /\ Forall (fun v => isDateValue v = true) ["2024-01-31"; " 01/02/2024 "].
Proof.
  split; [reflexivity|].
  exact (proj1 (proj2 (proj2 (inferColumnType_sound
                                ["2024-01-31"; ""; " 01/02/2024 "])) eq_refl)).
Defined.

(** ** Headers and columns *)

Lemma columnPlaceholder_not_empty (i : nat) : columnPlaceholder i <> "".
Proof. unfold columnPlaceholder. simpl. discriminate. Qed.

Lemma Forall_imap {A B} (P : B -> Prop) (f : nat -> A -> B) (l : list A) :
  (forall i x, P (f i x)) -> Forall P (imap f l).
Proof.
  revert f. induction l as [|x l IH]; intros f H; simpl; constructor.
  - apply H.
  - apply IH. intros i y. apply H.
Qed.

(** X13. In every Dataset returned by [parseCSV] no header is the empty
    string: a header cell that is blank after trimming is replaced by its
    placeholder.  There are as many headers as the first parsed row has
    fields, whether or not that row is a header line. *)
Theorem parseCSV_headers_not_empty Papa_parse content settings :
  let allRows :=
    Papa_parse content (delimiterOf content settings) (skipEmptyLines settings) in
  let data := parseCSV Papa_parse content settings in
  Forall (fun h => h <> "") (headers data)
  /\ length (headers data) = length (default [] (allRows !! 0%nat)).
Proof.
  intros allRows data. subst data. unfold parseCSV. fold allRows.
  destruct allRows as [|firstRow others]; simpl; [by split|].
  destruct (hasHeader settings); rewrite length_imap; (split; [|done]);
    apply Forall_imap; intros i h.
  - case_bool_decide as E; [apply columnPlaceholder_not_empty | done].
  - apply columnPlaceholder_not_empty.
Qed.

Lemma parseCSV_column_names Papa_parse content settings :
  map name (columns (parseCSV Papa_parse content settings))
  = headers (parseCSV Papa_parse content settings).
Proof.
  rewrite parseCSV_columns.
  generalize (rows (parseCSV Papa_parse content settings)).
  generalize (headers (parseCSV Papa_parse content settings)).
  intros hs rs.
  assert (H : forall k,
    map name (imap (fun i h => {| name := h;
        type := inferColumnType (map (fun row => cellOr "" row (k + i)) rs);
        index := (k + i)%nat |}) hs) = hs).
  { induction hs as [|h hs IH]; intros k; simpl; [done|].
    f_equal. unfold compose. rewrite <- (IH (S k)) at 2. f_equal.
    apply imap_ext. intros i x _. simpl. by rewrite Nat.add_succ_r. }
  apply (H 0%nat).
Qed.

Lemma NoDup_map_eq {A B} (f : A -> B) (l : list A) (a b : A) :
  NoDup (map f l) -> a ∈ l -> b ∈ l -> f a = f b -> a = b.
Proof.
  induction l as [|x l IH]; intros Hnd Ha Hb Hab.
  - by apply elem_of_nil in Ha.
  - simpl in Hnd. apply NoDup_cons in Hnd as [Hnotin Hnd].
    apply elem_of_cons in Ha as [->|Ha]; apply elem_of_cons in Hb as [->|Hb].
    + done.
    + exfalso. apply Hnotin. rewrite Hab.
      apply list_elem_of_In, in_map. by apply list_elem_of_In.
    + exfalso. apply Hnotin. rewrite <- Hab.
      apply list_elem_of_In, in_map. by apply list_elem_of_In.
    + by apply IH.
Qed.

(** The first column whose name matches, when the axis is one of the
    names. *)
Lemma findColumn_of_name (cols : list CSVColumn) (axis : string) :
  axis ∈ map name cols ->
  exists c, findColumn cols axis = Some c
            /\ c ∈ cols
            /\ toLowerCase (name c) = toLowerCase axis.
Proof.
  intros Hin. apply list_elem_of_In, in_map_iff in Hin as (c0 & Hname & Hc0).
  apply list_elem_of_In in Hc0.
  destruct (list_find (fun c => toLowerCase (name c) = toLowerCase axis) cols)
    as [[i c]|] eqn:E.
  - exists c. unfold findColumn. rewrite E. simpl.
    apply list_find_Some in E as (Hi & Hc & _).
    split; [done|]. split; [by apply list_elem_of_lookup_2 in Hi | done].
  - apply list_find_None in E. rewrite Forall_forall in E.
    specialize (E c0 Hc0). by rewrite Hname in E.
Qed.

(** X14. On a Dataset returned by [parseCSV], a chart that passes the
    validation of the suggestions (both axis names are headers, letter for
    letter) always resolves both of its columns in [processChartData], to
    columns whose names equal the axis names up to letter case.  When no two
    headers are equal up to letter case, the resolved columns are the ones
    with exactly the axis names. *)
Theorem valid_chart_resolves Papa_parse content settings chart :
  let data := parseCSV Papa_parse content settings in
  hasValidColumns data chart = true ->
  exists xc yc,
    findColumn (columns data) (xAxis chart) = Some xc
    /\ findColumn (columns data) (yAxis chart) = Some yc
    /\ toLowerCase (name xc) = toLowerCase (xAxis chart)
    /\ toLowerCase (name yc) = toLowerCase (yAxis chart)
    /\ (NoDup (map toLowerCase (headers data)) ->
        name xc = xAxis chart /\ name yc = yAxis chart).
Proof.
  intros data Hvalid. unfold hasValidColumns in Hvalid.
  apply andb_true_iff in Hvalid as [Hx Hy].
  apply bool_decide_eq_true in Hx, Hy.
  assert (Hnames : map name (columns data) = headers data)
    by apply parseCSV_column_names.
  rewrite <- Hnames in Hx, Hy.
  destruct (findColumn_of_name _ _ Hx) as (xc & Hfx & Hxc & Hlx).
  destruct (findColumn_of_name _ _ Hy) as (yc & Hfy & Hyc & Hly).
  exists xc, yc. do 4 (split; [done|]).
  intros Hnd. rewrite <- Hnames, map_map in Hnd. split.
  - apply list_elem_of_In, in_map_iff in Hx as (c & Hc & Hin).
    apply list_elem_of_In in Hin. rewrite <- Hc. f_equal.
    apply (NoDup_map_eq (fun c => toLowerCase (name c)) (columns data));
      [done|done|done|]. by rewrite Hlx, Hc.
  - apply list_elem_of_In, in_map_iff in Hy as (c & Hc & Hin).
    apply list_elem_of_In in Hin. rewrite <- Hc. f_equal.
    apply (NoDup_map_eq (fun c => toLowerCase (name c)) (columns data));
      [done|done|done|]. by rewrite Hly, Hc.
Qed.

Lemma valid_chart_resolves_witness :
  hasValidColumns
    (parseCSV RowParser.rowParser (lines ["Region,Sales"; "N,1"; "S,2"])
              DEFAULT_CSV_SETTINGS)
    (chartOf "Region" "Sales" AggSum) = true
  /\ exists xc yc,
       findColumn
         (columns (parseCSV RowParser.rowParser
                            (lines ["Region,Sales"; "N,1"; "S,2"])
                            DEFAULT_CSV_SETTINGS)) "Region" = Some xc
       /\ findColumn
            (columns (parseCSV RowParser.rowParser
                               (lines ["Region,Sales"; "N,1"; "S,2"])
                               DEFAULT_CSV_SETTINGS)) "Sales" = Some yc.
Proof.
  split; [reflexivity|].
  destruct (valid_chart_resolves RowParser.rowParser
              (lines ["Region,Sales"; "N,1"; "S,2"]) DEFAULT_CSV_SETTINGS
              (chartOf "Region" "Sales" AggSum) eq_refl)
    as (xc & yc & Hx & Hy & _).
  by exists xc, yc.
Defined.

(** ** The summary *)

(** X15. The summary is made of three fixed entries, one entry per column of
    the dataset and one entry per sample row, the sample rows being the first
    five rows of the dataset or all of them when there are fewer. *)
Theorem summary_entries toFixed2 data :
  length (summaryLines toFixed2 data)
  = (3 + length (columns data) + Nat.min 5 (length (rows data)))%nat.
Proof.
  unfold summaryLines.
  rewrite !length_app, length_map, length_imap, length_take. simpl. lia.
Qed.

Lemma append_cancel_l (p a b : string) : p +:+ a = p +:+ b -> a = b.
Proof.
  induction p as [|c p IH]; simpl; [done|].
  intros H. injection H as H. by apply IH.
Qed.

(** X16. For a column typed number, the summary says "no valid values"
    exactly when no non-empty cell of the column reads as a number after
    normalization (white space and commas removed); otherwise it reports
    statistics. *)
Theorem summary_no_valid_values toFixed2 data col :
  type col = TNumber ->
  (columnLine toFixed2 data col
   = "- " +:+ name col +:+ " (number): no valid values"
   <-> Forall (fun v => isNaN (normalizedNumber v) = true)
              (nonEmptyValues data col)).
Proof.
  intros Htype. unfold columnLine. rewrite Htype.
  assert (Hnumbers : columnNumbers data col = []
                     <-> Forall (fun v => isNaN (normalizedNumber v) = true)
                                (nonEmptyValues data col)).
  { unfold columnNumbers, normalizedNumber.
    induction (nonEmptyValues data col) as [|v l IH]; [done|].
    rewrite map_cons, filter_cons, Forall_cons.
    destruct (decide (isNaN (parseFloat (cleanNumber v)) = false)) as [E|E].
    - rewrite E. split; [done | intros [? _]; done].
    - apply not_false_is_true in E. rewrite IH, E. tauto. }
  rewrite <- Hnumbers.
  destruct (columnNumbers data col) as [|n numbers]; simpl; [done|].
  split; [|done]. intros H.
  apply (append_cancel_l "- "), append_cancel_l in H. discriminate H.
Qed.

Lemma summary_no_valid_values_witness :
  type {| name := "Amount"; type := TNumber; index := 1 |} = TNumber
  /\ columnLine (fun _ => "?") (dataset [["A"; "n/a"]; ["B"; " "]; ["C"]])
                {| name := "Amount"; type := TNumber; index := 1 |}
     = "- Amount (number): no valid values".
Proof.
  split; [reflexivity|].
  apply (proj2 (summary_no_valid_values (fun _ => "?")
                  (dataset [["A"; "n/a"]; ["B"; " "]; ["C"]])
                  {| name := "Amount"; type := TNumber; index := 1 |} eq_refl)).
  repeat constructor.
Defined.

(** * The chat store *)

Section ChatStoreFacts.

Import ChatStore.

Lemma run_version (st : State) (a : Action) :
  (version (store (run st a)) = version (store st)
   /\ store (run st a) = store st)
  \/ version (store (run st a)) = (version (store st) + 1)%nat.
Proof.
  destruct a; simpl; try (by right); try (by left).
  - unfold setActiveTabInStore. destruct (negb _); [by right | by left].
  - unfold runMicrotask. destruct (queued st); by left.
Qed.

Lemma runAll_cons (st : State) (a : Action) (actions : list Action) :
  runAll st (a :: actions) = runAll (run st a) actions.
Proof. reflexivity. Qed.

Lemma runAll_version_le (actions : list Action) (st : State) :
  (version (store st) <= version (store (runAll st actions)))%nat.
Proof.
  revert st. induction actions as [|a actions IH]; intros st; [simpl; lia|].
  rewrite runAll_cons. specialize (IH (run st a)).
  destruct (run_version st a) as [[E _]|E]; lia.
Qed.

(** X17. The version of the chat store never decreases, whatever is done to
    the module, and it changes whenever the store changes: after any sequence
    of operations, an unchanged version means an unchanged store. *)
Theorem chat_version_tracks_changes (st : State) (actions : list Action) :
  (version (store st) <= version (store (runAll st actions)))%nat
  /\ (version (store (runAll st actions)) = version (store st) ->
      store (runAll st actions) = store st).
Proof.
  split; [apply runAll_version_le|].
  revert st. induction actions as [|a actions IH]; intros st; [done|].
  rewrite runAll_cons. intros Hv.
  pose proof (runAll_version_le actions (run st a)) as Hle.
  destruct (run_version st a) as [[E Es]|E]; [|lia].
  rewrite <- Es. apply IH. by rewrite E.
Qed.

Lemma chat_version_tracks_changes_witness :
  version (store (runAll initial
                    [SetActiveTabInStore TabSummary; Subscribe 1%nat; RunMicrotask;
                     Unsubscribe 1%nat]))
  = version (store initial)
  /\ store (runAll initial
              [SetActiveTabInStore TabSummary; Subscribe 1%nat; RunMicrotask;
               Unsubscribe 1%nat])
     = store initial.
Proof.
  split; [reflexivity|].
  exact (proj2 (chat_version_tracks_changes initial
                  [SetActiveTabInStore TabSummary; Subscribe 1%nat; RunMicrotask;
                   Unsubscribe 1%nat]) eq_refl).
Defined.

Lemma run_history (st : State) (a : Action) :
  isClear a = false ->
  history (store (run st a)) = history (store st) ++ addedMessages [a].
Proof.
  destruct a; simpl; intros H; try done; rewrite ?app_nil_r; try done.
  - unfold setActiveTabInStore. by destruct (negb _).
  - unfold runMicrotask. by destruct (queued st).
Qed.

(** X18. As long as the store is not cleared, the history only grows at its
    end: after any sequence of operations without [clearChatStore], the
    history is the earlier history followed by the messages added, in the
    order in which they were added. *)
Theorem chat_history_append_only (st : State) (actions : list Action) :
  forallb (fun a => negb (isClear a)) actions = true ->
  history (store (runAll st actions))
  = history (store st) ++ addedMessages actions.
Proof.
  revert st. induction actions as [|a actions IH]; intros st H.
  - simpl. by rewrite app_nil_r.
  - simpl in H. apply andb_true_iff in H as [Ha H].
    apply negb_true_iff in Ha.
    rewrite runAll_cons, IH by done.
    rewrite run_history by done.
    assert (addedMessages (a :: actions)
            = addedMessages [a] ++ addedMessages actions) as ->
      by (by destruct a).
    by rewrite app_assoc.
Qed.

Lemma chat_history_append_only_witness :
  forallb (fun a => negb (isClear a))
          [AddChatMessage {| prompt := "p1"; response := "r1" |};
           SetCurrentPrompt "p2";
           AddChatMessage {| prompt := "p2"; response := "r2" |}] = true
  /\ history (store (runAll initial
                [AddChatMessage {| prompt := "p1"; response := "r1" |};
                 SetCurrentPrompt "p2";
                 AddChatMessage {| prompt := "p2"; response := "r2" |}]))
     = [{| prompt := "p1"; response := "r1" |};
        {| prompt := "p2"; response := "r2" |}].
Proof.
  split; [reflexivity|].
  rewrite (chat_history_append_only initial
             [AddChatMessage {| prompt := "p1"; response := "r1" |};
              SetCurrentPrompt "p2";
              AddChatMessage {| prompt := "p2"; response := "r2" |}] eq_refl).
  reflexivity.
Defined.

(** X19. In every state the module can reach from its initial state, a store
    that is not loading has an empty pending prompt. *)
Theorem chat_pending_prompt_only_while_loading (actions : list Action) :
  isLoading (store (runAll initial actions)) = false ->
  pendingPrompt (store (runAll initial actions)) = "".
Proof.
  assert (Hstep : forall st a,
    (isLoading (store st) = false -> pendingPrompt (store st) = "") ->
    isLoading (store (run st a)) = false -> pendingPrompt (store (run st a)) = "").
  { intros st a Hinv. destruct a; simpl; try done.
    - by destruct loading.
    - unfold setActiveTabInStore. by destruct (negb _).
    - unfold runMicrotask. by destruct (queued st). }
  assert (Hall : forall acts st,
    (isLoading (store st) = false -> pendingPrompt (store st) = "") ->
    isLoading (store (runAll st acts)) = false ->
    pendingPrompt (store (runAll st acts)) = "").
  { induction acts as [|a acts IH]; intros st Hinv; [done|].
    rewrite runAll_cons. apply IH. by apply Hstep. }
  by apply Hall.
Qed.

Lemma chat_pending_prompt_only_while_loading_witness :
  isLoading (store (runAll initial
               [SetLoadingState true "why?";
                AppendStreamingResponse "be";
                AddChatMessage {| prompt := "why?"; response := "because" |}]))
  = false
  /\ pendingPrompt (store (runAll initial
               [SetLoadingState true "why?";
                AppendStreamingResponse "be";
                AddChatMessage {| prompt := "why?"; response := "because" |}]))
     = "".
Proof.
  split; [reflexivity|].
  exact (chat_pending_prompt_only_while_loading
           [SetLoadingState true "why?";
            AppendStreamingResponse "be";
            AddChatMessage {| prompt := "why?"; response := "because" |}]
           eq_refl).
Defined.

Lemma filter_eq_not_in (cb : nat) (l : list nat) :
  cb ∉ l -> filter (fun x => x = cb) l = [].
Proof.
  induction l as [|x l IH]; [done|]. intros H.
  apply not_elem_of_cons in H as [Hx Hl].
  rewrite filter_cons, decide_False by done. by apply IH.
Qed.

Lemma run_not_subscribed (cb : nat) (st : State) (a : Action) :
  isSubscribe cb a = false ->
  cb ∉ subscribers st ->
  (cb ∉ subscribers (run st a))
  /\ filter (fun x => x = cb) (calls (run st a))
     = filter (fun x => x = cb) (calls st).
Proof.
  intros Ha Hcb.
  assert (Hsync : filter (fun x => x = cb) (calls st ++ subscribers st)
                  = filter (fun x => x = cb) (calls st)).
  { by rewrite filter_app, (filter_eq_not_in cb (subscribers st)), app_nil_r. }
  destruct a; simpl; try done.
  - unfold setActiveTabInStore. by destruct (negb _).
  - simpl in Ha. apply bool_decide_eq_false in Ha. split.
    + unfold setAdd. case_bool_decide; [done|].
      rewrite elem_of_app, list_elem_of_singleton. intros [?|?]; [done|].
      by apply Ha.
    + rewrite filter_app, filter_cons, filter_nil, decide_False by done.
      by rewrite app_nil_r.
  - split; [|done]. unfold setDelete. rewrite list_elem_of_filter. tauto.
  - unfold runMicrotask. by destruct (queued st).
Qed.

(** X20. A callback that has unsubscribed is not called any more: after
    [unsubscribe], whatever happens to the module (also notifications that
    were queued before) adds no call of that callback, until it subscribes
    again. *)
Theorem chat_unsubscribed_is_not_called (cb : nat) (st : State)
    (actions : list Action) :
  forallb (fun a => negb (isSubscribe cb a)) actions = true ->
  filter (fun x => x = cb) (calls (runAll (unsubscribe cb st) actions))
  = filter (fun x => x = cb) (calls st).
Proof.
  intros Hact.
  assert (Hall : forall acts st',
    forallb (fun a => negb (isSubscribe cb a)) acts = true ->
    cb ∉ subscribers st' ->
    filter (fun x => x = cb) (calls (runAll st' acts))
    = filter (fun x => x = cb) (calls st')).
  { induction acts as [|a acts IH]; intros st' H Hcb; [done|].
    simpl in H. apply andb_true_iff in H as [Ha H]. apply negb_true_iff in Ha.
    destruct (run_not_subscribed cb st' a Ha Hcb) as [Hcb' Hcalls].
    rewrite runAll_cons. by rewrite IH. }
  rewrite Hall; [done|done|].
  simpl. unfold setDelete. rewrite list_elem_of_filter. tauto.
Qed.

Lemma chat_unsubscribed_is_not_called_witness :
  forallb (fun a => negb (isSubscribe 7%nat a))
          [RunMicrotask; SetStreamingResponse "x"; Subscribe 8%nat; RunMicrotask] = true
  /\ calls (runAll (unsubscribe 7%nat (setCurrentPrompt "q" (subscribeToChatStore 7%nat initial)))
                   [RunMicrotask; SetStreamingResponse "x"; Subscribe 8%nat; RunMicrotask])
     = [7%nat; 8%nat]
  /\ filter (fun x : nat => x = 7%nat)
       (calls (runAll (unsubscribe 7%nat (setCurrentPrompt "q"
                                        (subscribeToChatStore 7%nat initial)))
                      [RunMicrotask; SetStreamingResponse "x"; Subscribe 8%nat;
                       RunMicrotask]))
     = [7%nat].
Proof.
  split; [reflexivity|]. split; [reflexivity|].
  rewrite (chat_unsubscribed_is_not_called 7%nat
             (setCurrentPrompt "q" (subscribeToChatStore 7%nat initial))
             [RunMicrotask; SetStreamingResponse "x"; Subscribe 8%nat; RunMicrotask]
             eq_refl).
  reflexivity.
Defined.

Lemma append_assoc (a b c : string) : (a +:+ b) +:+ c = a +:+ (b +:+ c).
Proof.
  induction a as [|x a IH]; [done|].
  change (String x ((a +:+ b) +:+ c) = String x (a +:+ (b +:+ c))).
  by f_equal.
Qed.

Lemma append_empty_r (s : string) : s +:+ "" = s.
Proof.
  induction s as [|x s IH]; [done|].
  change (String x (s +:+ "") = String x s). by f_equal.
Qed.

Lemma concat_empty_cons (c : string) (chunks : list string) :
  String.concat "" (c :: chunks) = c +:+ String.concat "" chunks.
Proof.
  destruct chunks as [|c' chunks]; [by rewrite append_empty_r | done].
Qed.

(** X21. Chunks appended to the streaming response accumulate in order: after
    appending a sequence of chunks, the streaming response is the earlier
    response followed by the chunks joined, the version has grown by the
    number of chunks, and nothing else in the store has changed. *)
Theorem chat_streaming_accumulates (st : State) (chunks : list string) :
  store (runAll st (map AppendStreamingResponse chunks))
  = mkStore (history (store st))
            (streamingResponse (store st) +:+ String.concat "" chunks)
            (currentPrompt (store st)) (activeTab (store st))
            (isLoading (store st)) (pendingPrompt (store st))
            (version (store st) + length chunks).
Proof.
  revert st. induction chunks as [|c chunks IH]; intros st.
  - destruct st as [[h s p t l q v] subs n cl].
    cbn [map runAll fold_left store history streamingResponse currentPrompt
         activeTab isLoading pendingPrompt version length String.concat].
    by rewrite append_empty_r, Nat.add_0_r.
  - cbn [map]. rewrite runAll_cons, IH, concat_empty_cons.
    cbn [run appendStreamingResponse updateStore notifySubscribersSync merge
         store history streamingResponse currentPrompt activeTab isLoading
         pendingPrompt version setsHistory setsStreamingResponse
         setsCurrentPrompt setsActiveTab setsIsLoading setsPendingPrompt
         default from_option length].
    unfold id. rewrite append_assoc. f_equal. lia.
Qed.

End ChatStoreFacts.

(** * The browser language *)

(** X22. [getBrowserLanguage] always answers a supported language code.  For
    a browser language that is a supported code, alone or followed by a
    hyphen and anything (a region, a script), the answer is that code; where
    there is no [navigator], the answer is "en". *)
Theorem getBrowserLanguage_supported :
  (forall nav, getBrowserLanguage nav ∈ SUPPORTED_LANGUAGE_CODES)
  /\ (forall code rest,
         code ∈ SUPPORTED_LANGUAGE_CODES ->
         getBrowserLanguage (Some code) = code
         /\ getBrowserLanguage (Some (code +:+ "-" +:+ rest)) = code)
  /\ getBrowserLanguage None = "en".
Proof.
  split; [|split; [|done]].
  - intros [language|]; unfold getBrowserLanguage; cbv zeta;
      [|apply list_elem_of_here].
    destruct (list_find (fun code => code = beforeHyphen language)
                        SUPPORTED_LANGUAGE_CODES) as [[i code]|] eqn:E;
      [|apply list_elem_of_here].
    apply list_find_Some in E as (Hi & _ & _).
    by apply list_elem_of_lookup_2 in Hi.
  - intros code rest Hcode. unfold SUPPORTED_LANGUAGE_CODES in Hcode.
    repeat (apply elem_of_cons in Hcode as [->|Hcode]; [by split|]).
    by apply elem_of_nil in Hcode.
Qed.

Lemma getBrowserLanguage_supported_witness :
  "pt" ∈ SUPPORTED_LANGUAGE_CODES
  /\ getBrowserLanguage (Some "pt-BR") = "pt".
Proof.
  assert (H : "pt" ∈ SUPPORTED_LANGUAGE_CODES)
    by (unfold SUPPORTED_LANGUAGE_CODES; rewrite !elem_of_cons; tauto).
  split; [exact H|].
  exact (proj2 (proj1 (proj2 getBrowserLanguage_supported) "pt" "BR" H)).
Defined.

(** * The data table *)

Lemma concat_pages {A} (l : list A) (k n : nat) :
  concat (map (fun page => paginatedRows l page k) (seq 0 n)) = take (n * k) l.
Proof.
  induction n as [|n IH]; [done|].
  rewrite seq_S, map_app, concat_app, IH. simpl.
  unfold paginatedRows. rewrite app_nil_r, take_take_drop. f_equal. lia.
Qed.

Lemma totalPages_bounds (rowCount rowsPerPage : nat) :
  (0 < rowsPerPage)%nat ->
  0 <= totalPages rowCount rowsPerPage
  /\ (totalPages rowCount rowsPerPage - 1) * Z.of_nat rowsPerPage < Z.of_nat rowCount
  /\ Z.of_nat rowCount <= totalPages rowCount rowsPerPage * Z.of_nat rowsPerPage.
Proof.
  intros Hk. unfold totalPages.
  set (a := inject_Z (Z.of_nat rowCount)).
  set (b := inject_Z (Z.of_nat rowsPerPage)).
  assert (Hb : (0 < b)%Q).
  { unfold b. change 0%Q with (inject_Z 0). rewrite <- Zlt_Qlt. lia. }
  assert (Ha : (0 <= a)%Q).
  { unfold a. change 0%Q with (inject_Z 0). rewrite <- Zle_Qle. lia. }
  assert (Hab : (b * (a / b) == a)%Q).
  { apply Qmult_div_r. intros E. rewrite E in Hb. by apply Qlt_irrefl in Hb. }
  pose proof (Qle_ceiling (a / b)) as Hup.
  pose proof (Qceiling_lt (a / b)) as Hlow.
  set (n := Qceiling (a / b)) in *.
  assert (H1 : (a <= inject_Z n * b)%Q).
  { rewrite <- Hab at 1. rewrite (Qmult_comm b). apply Qmult_le_compat_r; [done|].
    by apply Qlt_le_weak. }
  assert (H2 : (inject_Z (n - 1) * b < a)%Q).
  { rewrite <- Hab at 1. rewrite (Qmult_comm b). by apply Qmult_lt_compat_r. }
  unfold a, b in H1, H2. rewrite <- inject_Z_mult in H1, H2.
  rewrite <- Zle_Qle in H1. rewrite <- Zlt_Qlt in H2.
  split; [|split; done]. nia.
Qed.

(** X23. The pages of the table partition the rows it shows.  For a dataset
    whose [rowCount] is the number of its rows and a positive page size, the
    pages numbered from 0 to [totalPages - 1], put one after the other, are
    the sorted rows; each of them is non-empty and has at most [rowsPerPage]
    rows; a page number from [totalPages] on gives an empty page.  The sorted
    rows are a rearrangement of the rows of the dataset, for any column and
    direction. *)
Theorem table_pages_partition localeCompare data sortColumn sortDirection
    (rowsPerPage : nat) :
  rowCount data = length (rows data) ->
  (0 < rowsPerPage)%nat ->
  let sorted := sortedRows localeCompare data sortColumn sortDirection in
  let pages := Z.to_nat (totalPages (rowCount data) rowsPerPage) in
  sorted ≡ₚ rows data
  /\ concat (map (fun page => paginatedRows sorted page rowsPerPage) (seq 0 pages))
     = sorted
  /\ (forall page, (page < pages)%nat ->
        paginatedRows sorted page rowsPerPage <> []
        /\ (length (paginatedRows sorted page rowsPerPage) <= rowsPerPage)%nat)
  /\ (forall page, (pages <= page)%nat ->
        paginatedRows sorted page rowsPerPage = []).
Proof.
  intros Hcount Hk sorted pages.
  assert (Hperm : sorted ≡ₚ rows data).
  { unfold sorted, sortedRows. destruct sortColumn; [|done].
    apply Array_sort_Permutation. }
  assert (Hlen : length sorted = rowCount data)
    by (by rewrite Hcount, Hperm).
  destruct (totalPages_bounds (rowCount data) rowsPerPage Hk) as (H0 & Hlow & Hup).
  fold pages in Hlow, Hup.
  assert (Hpages : Z.of_nat pages = totalPages (rowCount data) rowsPerPage)
    by (unfold pages; lia).
  rewrite <- Hpages in Hlow, Hup.
  split; [done|]. split; [|split].
  - rewrite concat_pages. apply take_ge. nia.
  - intros page Hpage. unfold paginatedRows. split.
    + intros Hnil. apply (f_equal length) in Hnil.
      rewrite length_take, length_drop in Hnil. simpl in Hnil. nia.
    + rewrite length_take. lia.
  - intros page Hpage. unfold paginatedRows.
    rewrite drop_ge; [by rewrite take_nil|]. nia.
Qed.

Lemma table_pages_partition_witness :
  rowCount (dataset [["c"; "3"]; ["a"; "10"]; ["b"; "2"]]) = 3%nat
  /\ (0 < 2)%nat
  /\ totalPages 3 2 = 2
  /\ paginatedRows
       (sortedRows (fun _ _ => Fin 0) (dataset [["c"; "3"]; ["a"; "10"]; ["b"; "2"]])
                   (Some 1%nat) Asc) 0 2
     = [["b"; "2"]; ["c"; "3"]]
  /\ concat (map (fun page =>
                    paginatedRows
                      (sortedRows (fun _ _ => Fin 0)
                                  (dataset [["c"; "3"]; ["a"; "10"]; ["b"; "2"]])
                                  (Some 1%nat) Asc) page 2)
                 (seq 0 2))
     = sortedRows (fun _ _ => Fin 0)
                  (dataset [["c"; "3"]; ["a"; "10"]; ["b"; "2"]]) (Some 1%nat) Asc.
Proof.
  split; [reflexivity|]. split; [lia|]. split; [reflexivity|].
  split; [vm_compute; reflexivity|].
  exact (proj1 (proj2 (table_pages_partition (fun _ _ => Fin 0)
                         (dataset [["c"; "3"]; ["a"; "10"]; ["b"; "2"]])
                         (Some 1%nat) Asc 2 eq_refl ltac:(lia)))).
Defined.

(** * The chart suggestions panel *)

Section SuggestionsFacts.

Import Suggestions.

Lemma setDelete_elem_of (x y : string) (s : list string) :
  y ∈ setDelete x s <-> y <> x /\ y ∈ s.
Proof. unfold setDelete. by rewrite list_elem_of_filter. Qed.

Lemma setAdd_elem_of (x y : string) (s : list string) :
  y ∈ setAdd x s <-> y = x \/ y ∈ s.
Proof.
  unfold setAdd. case_bool_decide as H.
  - split; [by right|]. intros [->|?]; done.
  - rewrite elem_of_app, list_elem_of_singleton. tauto.
Qed.

(** X24. Toggling a chart twice leaves the selection as it was: the same ids
    are selected, and the suggestions are untouched.  Toggling once flips the
    selection of that chart only. *)
Theorem toggleChart_twice (chartId : string) (st : State) :
  (forall x, x ∈ selectedCharts (toggleChart chartId (toggleChart chartId st))
             <-> x ∈ selectedCharts st)
  /\ suggestions (toggleChart chartId (toggleChart chartId st)) = suggestions st
  /\ (chartId ∈ selectedCharts (toggleChart chartId st)
      <-> chartId ∉ selectedCharts st)
  /\ (forall x, x <> chartId ->
        (x ∈ selectedCharts (toggleChart chartId st) <-> x ∈ selectedCharts st)).
Proof.
  assert (Hflip : forall s : State,
    (chartId ∈ selectedCharts (toggleChart chartId s) <-> chartId ∉ selectedCharts s)
    /\ (forall x, x <> chartId ->
          (x ∈ selectedCharts (toggleChart chartId s) <-> x ∈ selectedCharts s))).
  { intros s. unfold toggleChart. simpl. case_bool_decide as H.
    - split; [|intros x Hx]; rewrite setDelete_elem_of; tauto.
    - split; [|intros x Hx]; rewrite setAdd_elem_of; tauto. }
  split; [|split; [done|apply Hflip]].
  intros x. destruct (decide (x = chartId)) as [->|Hx].
  - destruct (Hflip st) as [H1 _]. destruct (Hflip (toggleChart chartId st)) as [H2 _].
    rewrite H2, H1. destruct (decide (chartId ∈ selectedCharts st)); tauto.
  - destruct (Hflip st) as [_ H1]. destruct (Hflip (toggleChart chartId st)) as [_ H2].
    by rewrite H2, H1.
Qed.

Lemma toggleChart_twice_witness :
  "c1" <> "c2"
  /\ ("c1" ∈ selectedCharts
              (toggleChart "c2"
                 (mkState [] ["c1"] None false emptyManualConfig))
      <-> "c1" ∈ ["c1"]).
Proof.
  split; [discriminate|].
  exact (proj2 (proj2 (proj2 (toggleChart_twice "c2"
           (mkState [] ["c1"] None false emptyManualConfig))))
           "c1" ltac:(discriminate)).
Defined.

(** X25. Removing a chart takes it out of the suggestions and out of the
    selection and leaves the other suggestions in their order; the charts
    handed over by the auto-apply effect are the earlier ones without it.
    When no other suggestion is left the effect does not run: nothing is
    handed over, not even an empty list. *)
Theorem removeChart_applied (chartId : string) (st : State) :
  suggestions (removeChart chartId st)
  = filter (fun s => id s <> chartId) (suggestions st)
  /\ (forall x, x ∈ selectedCharts (removeChart chartId st)
                <-> x <> chartId /\ x ∈ selectedCharts st)
  /\ filter (fun s => id s ∈ selectedCharts (removeChart chartId st))
            (suggestions (removeChart chartId st))
     = filter (fun s => id s <> chartId)
              (filter (fun s => id s ∈ selectedCharts st) (suggestions st))
  /\ (Forall (fun s => id s = chartId) (suggestions st) ->
      autoApply (removeChart chartId st) = None).
Proof.
  split; [done|]. split; [intros x; apply setDelete_elem_of|]. split.
  - simpl. induction (suggestions st) as [|s l IH]; [done|].
    rewrite !filter_cons.
    destruct (decide (id s <> chartId)) as [Hs|Hs];
      destruct (decide (id s ∈ selectedCharts st)) as [Hin|Hin];
      rewrite ?filter_cons.
    + rewrite decide_True by (apply setDelete_elem_of; tauto).
      rewrite decide_True by done. by rewrite IH.
    + rewrite decide_False by (rewrite setDelete_elem_of; tauto). done.
    + rewrite decide_False by done. done.
    + done.
  - intros Hall. unfold autoApply. simpl.
    replace (filter (fun s => id s <> chartId) (suggestions st)) with (@nil Suggestion);
      [done|].
    induction Hall as [|s l Hs Hl IH]; [done|].
    rewrite filter_cons, decide_False by (intros H; by apply H). done.
Qed.

Lemma removeChart_applied_witness :
  Forall (fun s => id s = "c1")
         [{| id := "c1"; chartType := Bar; chartTitle := "t"; description := "d";
             chart := chartOf "Category" "Amount" AggSum;
             dataConfig := ("Category", "Amount") |}]
  /\ autoApply
       (removeChart "c1"
          (mkState [{| id := "c1"; chartType := Bar; chartTitle := "t";
                       description := "d";
                       chart := chartOf "Category" "Amount" AggSum;
                       dataConfig := ("Category", "Amount") |}]
                   ["c1"] None false emptyManualConfig)) = None.
Proof.
  assert (H : Forall (fun s => id s = "c1")
         [{| id := "c1"; chartType := Bar; chartTitle := "t"; description := "d";
             chart := chartOf "Category" "Amount" AggSum;
             dataConfig := ("Category", "Amount") |}])
    by (repeat constructor).
  split; [exact H|].
  exact (proj2 (proj2 (proj2 (removeChart_applied "c1"
           (mkState [{| id := "c1"; chartType := Bar; chartTitle := "t";
                        description := "d";
                        chart := chartOf "Category" "Amount" AggSum;
                        dataConfig := ("Category", "Amount") |}]
                    ["c1"] None false emptyManualConfig)))) H).
Defined.

(** X26. [handleManualCreate] adds a chart exactly when the title is not
    blank, an x column is chosen and either a y column is chosen or the
    aggregation is count; otherwise the suggestions stay as they are and an
    error message is set.  The chart it adds is put last and selected, has the
    chosen x column as [xAxis], and has as [yAxis] the chosen y column, or the
    x column itself when none is chosen (which happens for count only); both
    axis names are non-empty. *)
Theorem handleManualCreate_outcome (now : nat) (st : State) :
  let cfg := manualConfig st in
  let complete :=
    trim (title cfg) <> "" /\ xColumn cfg <> ""
    /\ (yColumn cfg <> "" \/ aggregation cfg = AggCount) in
  (complete ->
   exists new,
     suggestions (handleManualCreate now st) = suggestions st ++ [new]
     /\ id new ∈ selectedCharts (handleManualCreate now st)
     /\ chart new
        = chartOf (xColumn cfg)
                  (if bool_decide (yColumn cfg = "") then xColumn cfg
                   else yColumn cfg)
                  (aggregation cfg)
     /\ xAxis (chart new) <> "" /\ yAxis (chart new) <> "")
  /\ (~ complete ->
      suggestions (handleManualCreate now st) = suggestions st
      /\ selectedCharts (handleManualCreate now st) = selectedCharts st
      /\ is_Some (error (handleManualCreate now st))).
Proof.
  intros cfg complete. subst complete. unfold handleManualCreate. fold cfg.
  destruct (decide (trim (title cfg) = "")) as [Ht|Ht].
  { rewrite (bool_decide_true _ Ht). simpl. split; [tauto|]. by intros _. }
  rewrite (bool_decide_false _ Ht). simpl.
  destruct (decide (xColumn cfg = "")) as [Hx|Hx].
  { rewrite (bool_decide_true _ Hx). split; [tauto|]. by intros _. }
  rewrite (bool_decide_false _ Hx).
  destruct (decide (yColumn cfg = "")) as [Hy|Hy].
  - rewrite (bool_decide_true (yColumn cfg = "")) by done.
    destruct (aggregation cfg) eqn:Hagg;
      try (rewrite (bool_decide_true _ Hy); split;
           [intros (_ & _ & [?|?]); done | by intros _]).
    rewrite (bool_decide_false _ Hx). split; [|tauto].
    intros _. eexists. split; [done|]. split; [apply setAdd_elem_of; by left|].
    by repeat split.
  - rewrite (bool_decide_false (yColumn cfg = "")) by done.
    assert (Hycol : match aggregation cfg with
                    | AggCount => yColumn cfg
                    | _ => yColumn cfg
                    end = yColumn cfg) by (by destruct (aggregation cfg)).
    rewrite Hycol, (bool_decide_false _ Hy). split; [|tauto].
    intros _. eexists. split; [done|]. split; [apply setAdd_elem_of; by left|].
    by repeat split.
Qed.

Lemma handleManualCreate_outcome_witness :
  (trim "Rows per region" <> "" /\ "Region" <> ""
   /\ ("" <> "" \/ AggCount = AggCount))
  /\ exists new,
       suggestions
         (handleManualCreate 17
            (mkState [] [] None true
               {| type := Pie; title := "Rows per region"; xColumn := "Region";
                  yColumn := ""; aggregation := AggCount |})) = [] ++ [new]
       /\ yAxis (chart new) = "Region".
Proof.
  assert (H : trim "Rows per region" <> "" /\ "Region" <> ""
              /\ ("" <> "" \/ AggCount = AggCount))
    by (repeat split; try discriminate; by right).
  split; [exact H|].
  destruct (proj1 (handleManualCreate_outcome 17
              (mkState [] [] None true
                 {| type := Pie; title := "Rows per region"; xColumn := "Region";
                    yColumn := ""; aggregation := AggCount |})) H)
    as (new & Hs & _ & Hc & _).
  exists new. split; [exact Hs | by rewrite Hc].
Defined.

End SuggestionsFacts.
